(** * Stock-prediction front end: the click handler of [StockMarket/script.js]

    The script registers one asynchronous click handler on the predict
    button.  The development below embeds

    - the part of the JavaScript run time the handler relies on
      (UTF-16 strings, binary64 numbers, the dynamic values produced by
      [JSON.parse], and the conversions between them), in [Module JS];
    - the page (the elements the handler reads and writes), the module
      variable [stockChart], the chart objects and the network log;
    - the handler itself, statement by statement, in a small
      state-and-completion monad;
    - the event loop that interleaves several pending clicks.

    What lies outside the script is modelled as follows.  The page has
    the elements the script looks up; an element keeps the last string
    written to [innerText], [style.display] and [className].  [fetch]
    records the request; how its promise and the one of
    [response.json()] settle is an input of the handler.  A chart object
    of the charting library keeps the configuration it was built from,
    [new Chart] makes a fresh live object and [destroy] marks an object
    as destroyed; looking up the canvas and its 2d context changes
    nothing.  *)

From Stdlib Require Import ZArith NArith QArith Qround Qabs List String Ascii Bool Lia.
From Stdlib Require Import SpecFloat Lqa.
From stdpp Require Import base list.

Set Default Proof Using "Type".
Local Set Warnings "-register-all".

(* ===================================================================== *)
(** * The JavaScript run time used by the script                          *)
(* ===================================================================== *)

Module JS.

(** ** Strings

    A JavaScript string is a sequence of UTF-16 code units.  Literals of
    the script are ASCII, except the two arrows of the badge text. *)

Abbreviation jsstring := (list N).

Definition lit (s : string) : jsstring :=
  map N_of_ascii (list_ascii_of_string s).
Arguments lit : simpl never.

Fixpoint str_eqb (s t : jsstring) : bool :=
  match s, t with
  | [], [] => true
  | c :: s', d :: t' => N.eqb c d && str_eqb s' t'
  | _, _ => false
  end.

(** WhiteSpace and LineTerminator code points (all in the BMP):
    TAB, LF, VT, FF, CR, SP, NBSP, U+1680, U+2000..U+200A, LS, PS,
    U+202F, U+205F, U+3000 and the BOM. *)
Definition is_white (c : N) : bool :=
  ((c =? 9) || (c =? 10) || (c =? 11) || (c =? 12) || (c =? 13)
   || (c =? 32) || (c =? 160) || (c =? 5760)
   || ((8192 <=? c) && (c <=? 8202))
   || (c =? 8232) || (c =? 8233) || (c =? 8239) || (c =? 8287)
   || (c =? 12288) || (c =? 65279))%N.

Fixpoint trim_start (s : jsstring) : jsstring :=
  match s with
  | c :: s' => if is_white c then trim_start s' else s
  | [] => []
  end.

Definition trim_end (s : jsstring) : jsstring := rev (trim_start (rev s)).

(** [String.prototype.trim] *)
Definition trim (s : jsstring) : jsstring := trim_end (trim_start s).

(** Iteration of a string (the spread of a string) yields its code
    points: a leading surrogate followed by a trailing one is one item. *)
Definition is_lead (c : N) : bool := ((55296 <=? c) && (c <=? 56319))%N.
Definition is_trail (c : N) : bool := ((56320 <=? c) && (c <=? 57343))%N.

Fixpoint code_points (s : jsstring) : list jsstring :=
  match s with
  | [] => []
  | c :: s' =>
      match s' with
      | d :: s'' =>
          if is_lead c && is_trail d
          then match code_points s' with
               | _ :: rest => [c; d] :: rest
               | [] => [[c; d]]
               end
          else [c] :: code_points s'
      | [] => [[c]]
      end
  end.

(** Decimal digits of a natural number, most significant first. *)
Fixpoint uint_units (u : Decimal.uint) : jsstring :=
  match u with
  | Decimal.Nil => []
  | Decimal.D0 u' => 48%N :: uint_units u'
  | Decimal.D1 u' => 49%N :: uint_units u'
  | Decimal.D2 u' => 50%N :: uint_units u'
  | Decimal.D3 u' => 51%N :: uint_units u'
  | Decimal.D4 u' => 52%N :: uint_units u'
  | Decimal.D5 u' => 53%N :: uint_units u'
  | Decimal.D6 u' => 54%N :: uint_units u'
  | Decimal.D7 u' => 55%N :: uint_units u'
  | Decimal.D8 u' => 56%N :: uint_units u'
  | Decimal.D9 u' => 57%N :: uint_units u'
  end.

Definition dec_digits (n : Z) : jsstring := uint_units (N.to_uint (Z.to_N n)).

(** ** Numbers

    A Number is an IEEE 754 binary64 value; the arithmetic is the one of
    the standard library's specification of floating point, at precision
    53 and maximal exponent 1024 (round to nearest, ties to even). *)

Abbreviation number := spec_float.

Definition prec : Z := 53.
Definition emax : Z := 1024.

Definition num_sub : number -> number -> number := SFsub prec emax.
Definition num_mul : number -> number -> number := SFmul prec emax.
Definition num_div : number -> number -> number := SFdiv prec emax.
Definition num_compare : number -> number -> option comparison := SFcompare.
Definition num_eqb : number -> number -> bool := SFeqb.
Definition is_json_number (x : number) : bool :=
  match x with
  | S754_nan => false
  | _ => valid_binary prec emax x
  end.

Definition Qpow (b : positive) (k : Z) : Q :=
  match k with
  | Z0 => 1
  | Zpos p => inject_Z (Zpos (b ^ p))
  | Zneg p => 1 # (b ^ p)
  end.

(** The magnitude of a finite number, as an exact rational. *)
Definition magnitude (m : positive) (e : Z) : Q := inject_Z (Zpos m) * Qpow 2 e.

(** The Number value of a non-negative rational, with sign [neg]. *)
Definition of_Q (neg : bool) (q : Q) : number :=
  match Qnum q with
  | Zpos n =>
      let '(mz, ez, lz) :=
        SFdiv_core_binary prec emax (Zpos n) 0 (Zpos (Qden q)) 0 in
      binary_round_aux prec emax neg mz ez lz
  | _ => S754_zero neg
  end.

Definition of_Z (z : Z) : number := binary_normalize prec emax z 0 false.
Arguments of_Z : simpl never.
Arguments of_Q : simpl never.
Arguments num_sub : simpl never.
Arguments num_mul : simpl never.
Arguments num_div : simpl never.
Arguments num_compare : simpl never.

Definition num_zero : number := S754_zero false.
Definition num_nan : number := S754_nan.

(** *** Number::toString (radix 10)

    For a finite positive [x] the digits are the shortest decimal
    [s * 10^(n-k)], with [k] digits, whose Number value is [x]; among
    several, the closest to [x], and the even one on a tie. *)

(** [decimal_exponent q] is the [n] with [10^(n-1) <= q < 10^n]. *)
Fixpoint lead_zeros (fuel : nat) (q : Q) (n : Z) : Z :=
  match fuel with
  | O => n
  | S fuel' =>
      if Qle_bool (1 # 10) q then n
      else lead_zeros fuel' (q * inject_Z 10) (n - 1)
  end.

Definition decimal_exponent (q : Q) : Z :=
  if Qle_bool 1 q then Z.of_nat (length (dec_digits (Qfloor q)))
  else lead_zeros 400 q 0.

Definition decimal (s n k : Z) : Q := inject_Z s * Qpow 10 (n - k).

Definition candidates (x : number) (q : Q) (k n : Z) : list (Z * Z) :=
  let lo := Qfloor (q * Qpow 10 (k - n)) in
  List.filter
    (fun c : Z * Z =>
       (10 ^ (k - 1) <=? fst c)%Z && (fst c <? 10 ^ k)%Z
       && num_eqb (of_Q false (decimal (fst c) n k)) x)
    [(lo, n); ((lo + 1)%Z, n)].

Definition closer (q : Q) (k : Z) (a b : Z * Z) : Z * Z :=
  let da := Qabs (decimal (fst a) (snd a) k - q) in
  let db := Qabs (decimal (fst b) (snd b) k - q) in
  match Qcompare da db with
  | Lt => a
  | Gt => b
  | Eq => if Z.even (fst a) then a else b
  end.

Fixpoint shortest (fuel : nat) (x : number) (q : Q) (n0 k : Z) : Z * Z * Z :=
  match fuel with
  | O => (Qfloor (q * Qpow 10 (k - n0)), n0, k)
  | S fuel' =>
      match candidates x q k (n0 - 1) ++ candidates x q k n0
            ++ candidates x q k (n0 + 1) with
      | c :: cs => let b := fold_left (closer q k) cs c in (fst b, snd b, k)
      | [] => shortest fuel' x q n0 (k + 1)
      end
  end.

Definition zeros (n : Z) : jsstring := repeat 48%N (Z.to_nat n).

Definition exponent_part (n : Z) : jsstring :=
  lit "e" ++ (if (0 <=? n - 1)%Z then lit "+" else lit "-")
  ++ dec_digits (Z.abs (n - 1)).

Definition format_digits (ds : jsstring) (n : Z) : jsstring :=
  let k := Z.of_nat (length ds) in
  if (k <=? n)%Z && (n <=? 21)%Z then ds ++ zeros (n - k)
  else if (0 <? n)%Z && (n <=? 21)%Z
  then take (Z.to_nat n) ds ++ lit "." ++ drop (Z.to_nat n) ds
  else if (-6 <? n)%Z && (n <=? 0)%Z then lit "0." ++ zeros (- n) ++ ds
  else if (k =? 1)%Z then ds ++ exponent_part n
  else take 1 ds ++ lit "." ++ drop 1 ds ++ exponent_part n.

Definition num_to_string (x : number) : jsstring :=
  match x with
  | S754_nan => lit "NaN"
  | S754_zero _ => lit "0"
  | S754_infinity s => if s then lit "-Infinity" else lit "Infinity"
  | S754_finite s m e =>
      let q := magnitude m e in
      let '(d, n, _) := shortest 17 (S754_finite false m e) q (decimal_exponent q) 1 in
      (if s then lit "-" else []) ++ format_digits (dec_digits d) n
  end.

(** *** Number.prototype.toFixed

    [n] is the integer closest to [x * 10^f], the larger one on a tie;
    values from [10^21] on, and the non-finite ones, print as
    [num_to_string] does. *)
Definition fixed_digits (f : nat) (q : Q) : jsstring :=
  let n := Qfloor (q * Qpow 10 (Z.of_nat f) + (1 # 2)) in
  let ds := dec_digits n in
  let ds := repeat 48%N (f + 1 - length ds) ++ ds in
  let k := length ds in
  if Nat.eqb f 0 then ds else take (k - f) ds ++ lit "." ++ drop (k - f) ds.

Definition toFixed (f : nat) (x : number) : jsstring :=
  match x with
  | S754_zero _ => fixed_digits f 0
  | S754_finite s m e =>
      let q := magnitude m e in
      if Qle_bool (Qpow 10 21) q then num_to_string x
      else (if s then lit "-" else []) ++ fixed_digits f q
  | _ => num_to_string x
  end.
Arguments toFixed : simpl never.
Arguments num_to_string : simpl never.

(** *** StringToNumber

    [StrWhiteSpace? StrNumericLiteral? StrWhiteSpace?]: the empty string
    is [+0], a signed decimal literal or [Infinity], or an unsigned
    binary, octal or hexadecimal integer; everything else is [NaN].  The
    mathematical value is rounded to the nearest Number. *)

Definition digit_of (radix : Z) (c : N) : option Z :=
  let v :=
    if ((48 <=? c) && (c <=? 57))%N then (Z.of_N c - 48)%Z
    else if ((97 <=? c) && (c <=? 122))%N then (Z.of_N c - 87)%Z
    else if ((65 <=? c) && (c <=? 90))%N then (Z.of_N c - 55)%Z
    else radix in
  if (v <? radix)%Z then Some v else None.

Fixpoint span_digits (radix : Z) (s : jsstring) : list Z * jsstring :=
  match s with
  | c :: s' =>
      match digit_of radix c with
      | Some d => let '(ds, r) := span_digits radix s' in (d :: ds, r)
      | None => ([], s)
      end
  | [] => ([], [])
  end.

Definition digits_value (radix : Z) (ds : list Z) : Z :=
  fold_left (fun a d => radix * a + d)%Z ds 0%Z.

Definition parse_radix (radix : Z) (s : jsstring) : number :=
  match span_digits radix s with
  | (d :: ds, []) => of_Z (digits_value radix (d :: ds))
  | _ => num_nan
  end.

Definition parse_exponent (s : jsstring) : option Z :=
  match s with
  | [] => Some 0%Z
  | c :: s' =>
      if ((c =? 101) || (c =? 69))%N then
        let '(neg, s'') :=
          match s' with
          | 43%N :: r => (false, r)
          | 45%N :: r => (true, r)
          | _ => (false, s')
          end in
        match span_digits 10 s'' with
        | (d :: ds, []) =>
            let v := digits_value 10 (d :: ds) in
            Some (if neg then (- v)%Z else v)
        | _ => None
        end
      else None
  end.

Definition parse_unsigned_decimal (neg : bool) (s : jsstring) : number :=
  if str_eqb s (lit "Infinity") then S754_infinity neg
  else
    let '(ip, r1) := span_digits 10 s in
    let '(fp, r2) :=
      match r1 with
      | 46%N :: r => span_digits 10 r
      | _ => ([], r1)
      end in
    match ip ++ fp, parse_exponent r2 with
    | _ :: _, Some e =>
        of_Q neg (inject_Z (digits_value 10 (ip ++ fp))
                  * Qpow 10 (e - Z.of_nat (length fp)))
    | _, _ => num_nan
    end.

Definition string_to_number (s : jsstring) : number :=
  match trim s with
  | [] => num_zero
  | 43%N :: r => parse_unsigned_decimal false r
  | 45%N :: r => parse_unsigned_decimal true r
  | 48%N :: c :: r =>
      if ((c =? 120) || (c =? 88))%N then parse_radix 16 r
      else if ((c =? 111) || (c =? 79))%N then parse_radix 8 r
      else if ((c =? 98) || (c =? 66))%N then parse_radix 2 r
      else parse_unsigned_decimal false (48%N :: c :: r)
  | t => parse_unsigned_decimal false t
  end.
Arguments string_to_number : simpl never.

(** ** Values and exceptions

    The values the handler manipulates come out of [JSON.parse]: null,
    booleans, numbers, strings, arrays and plain objects whose own
    properties are listed in insertion order, one entry per key;
    [undefined] appears when a property is absent. *)

Inductive value :=
| VUndefined
| VNull
| VBool (b : bool)
| VNum (x : number)
| VStr (s : jsstring)
| VArr (items : list value)
| VObj (fields : list (jsstring * value)).

Inductive exn := TypeError | RangeError | NetworkError | SyntaxError.

Inductive result (A : Type) :=
| Ok (a : A)
| Err (e : exn).
Arguments Ok {A} a.
Arguments Err {A} e.

Definition rbind {A B} (r : result A) (k : A -> result B) : result B :=
  match r with
  | Ok a => k a
  | Err e => Err e
  end.

Notation "x <-r r ; k" := (rbind r (fun x => k))
  (at level 100, r at next level, right associativity).

Fixpoint own (k : jsstring) (fields : list (jsstring * value)) : option value :=
  match fields with
  | [] => None
  | (k', v) :: rest => if str_eqb k k' then Some v else own k rest
  end.

Definition has_own (k : jsstring) (fields : list (jsstring * value)) : bool :=
  match own k fields with
  | Some _ => true
  | None => false
  end.

Definition length_value {A} (l : list A) : value :=
  VNum (of_Z (Z.of_nat (length l))).

(** [v.k], for the property names the script reads: [length] and names
    that no built-in prototype defines (error, ticker, last_close,
    predicted_price, history, predicted, dates, closes, date, price). *)
Definition get (v : value) (k : jsstring) : result value :=
  match v with
  | VUndefined | VNull => Err TypeError
  | VObj fields =>
      Ok (match own k fields with
          | Some x => x
          | None => VUndefined
          end)
  | VArr items =>
      Ok (if str_eqb k (lit "length") then length_value items else VUndefined)
  | VStr s =>
      Ok (if str_eqb k (lit "length") then length_value s else VUndefined)
  | VBool _ | VNum _ => Ok VUndefined
  end.

(** ToBoolean *)
Definition to_boolean (v : value) : bool :=
  match v with
  | VUndefined | VNull => false
  | VBool b => b
  | VNum (S754_zero _) | VNum S754_nan => false
  | VNum _ => true
  | VStr [] => false
  | VStr _ => true
  | VArr _ | VObj _ => true
  end.

(** ToString.  An array is joined with commas, null and undefined items
    printing as nothing.  A plain object prints through
    [Object.prototype.toString], unless an own property named toString
    (never callable in parsed JSON) shadows it: then no method yields a
    primitive and the conversion throws. *)
Fixpoint to_string (v : value) : result jsstring :=
  match v with
  | VUndefined => Ok (lit "undefined")
  | VNull => Ok (lit "null")
  | VBool b => Ok (if b then lit "true" else lit "false")
  | VNum x => Ok (num_to_string x)
  | VStr s => Ok s
  | VArr items =>
      (fix join (first : bool) (l : list value) : result jsstring :=
         match l with
         | [] => Ok []
         | x :: l' =>
             sx <-r match x with
                    | VUndefined | VNull => Ok []
                    | _ => to_string x
                    end;
             rest <-r join false l';
             Ok ((if first then [] else lit ",") ++ sx ++ rest)
         end) true items
  | VObj fields =>
      if has_own (lit "toString") fields then Err TypeError
      else Ok (lit "[object Object]")
  end.

(** ToNumber; arrays and objects go through their string. *)
Definition to_number (v : value) : result number :=
  match v with
  | VUndefined => Ok num_nan
  | VNull => Ok num_zero
  | VBool b => Ok (of_Z (if b then 1 else 0))
  | VNum x => Ok x
  | VStr s => Ok (string_to_number s)
  | VArr _ | VObj _ => s <-r to_string v; Ok (string_to_number s)
  end.

(** The conversion applied by the [innerText] setter: null is the empty
    string, anything else goes through ToString. *)
Definition to_dom_string (v : value) : result jsstring :=
  match v with
  | VNull => Ok []
  | _ => to_string v
  end.

(** [x - y], [x / y], [x * y] on values. *)
Definition arith (op : number -> number -> number) (x y : value) : result value :=
  nx <-r to_number x;
  ny <-r to_number y;
  Ok (VNum (op nx ny)).

(** [x >= y] when the operands are not both strings. *)
Definition ge (x y : value) : result bool :=
  nx <-r to_number x;
  ny <-r to_number y;
  Ok (match num_compare nx ny with
      | Some Gt | Some Eq => true
      | _ => false
      end).

(** [[...v]]: arrays and strings are iterable, nothing else here is. *)
Definition spread (v : value) : result (list value) :=
  match v with
  | VArr items => Ok items
  | VStr s => Ok (map VStr (code_points s))
  | _ => Err TypeError
  end.

Fixpoint mapM {A B} (f : A -> result B) (l : list A) : result (list B) :=
  match l with
  | [] => Ok []
  | x :: l' => y <-r f x; ys <-r mapM f l'; Ok (y :: ys)
  end.

(** [v.map(p => p.k)]: only arrays have a callable map. *)
Definition map_property (v : value) (k : jsstring) : result (list value) :=
  match v with
  | VArr items => mapM (fun p => get p k) items
  | _ => Err TypeError
  end.

(** [new Array(len).fill(null)] for a Number [len]: a RangeError unless
    [len] is an integer in [0, 2^32 - 1]. *)
Definition array_fill_null (len : number) : result (list value) :=
  match len with
  | S754_zero _ => Ok []
  | S754_finite false m e =>
      let q := magnitude m e in
      let n := Qfloor q in
      if Qeq_bool (inject_Z n) q && (n <? 2 ^ 32)%Z
      then Ok (repeat VNull (Z.to_nat n))
      else Err RangeError
  | _ => Err RangeError
  end.

End JS.

Import JS.

(* ===================================================================== *)
(** * The page, the chart objects and the network                         *)
(* ===================================================================== *)

(** The elements the handler looks up, by id (the two parts of the
    button by class). *)
Inductive elem_id :=
| TickerInput | ErrorMessage | ResultsSection | InfoSection
| BtnText | BtnLoading
| TickerDisplay | CurrentPrice | PredictedPrice | PriceChange
| PercentChange | ChangeBadge.

Definition elem_eqb (a b : elem_id) : bool :=
  match a, b with
  | TickerInput, TickerInput | ErrorMessage, ErrorMessage
  | ResultsSection, ResultsSection | InfoSection, InfoSection
  | BtnText, BtnText | BtnLoading, BtnLoading
  | TickerDisplay, TickerDisplay | CurrentPrice, CurrentPrice
  | PredictedPrice, PredictedPrice | PriceChange, PriceChange
  | PercentChange, PercentChange | ChangeBadge, ChangeBadge => true
  | _, _ => false
  end.

(** The properties of an element the script touches: [value],
    [innerText], [style.display] and [className]. *)
Record element := Element {
  value_of : jsstring;
  innerText : jsstring;
  display : jsstring;
  className : jsstring
}.

Definition with_innerText (s : jsstring) (e : element) : element :=
  Element (value_of e) s (display e) (className e).
Definition with_display (s : jsstring) (e : element) : element :=
  Element (value_of e) (innerText e) s (className e).
Definition with_className (s : jsstring) (e : element) : element :=
  Element (value_of e) (innerText e) (display e) s.
Definition with_value (s : jsstring) (e : element) : element :=
  Element s (innerText e) (display e) (className e).

(** A chart object of the charting library: the configuration it was
    built from, and whether [destroy] has been called on it. *)
Record chart := Chart {
  config : value;
  destroyed : bool
}.

Definition destroy (c : chart) : chart := Chart (config c) true.

(** A request handed to [fetch]; [body] is the object given to
    [JSON.stringify]. *)
Record request := Request {
  url : jsstring;
  method : jsstring;
  content_type : jsstring;
  body : value
}.

(** The state the handler runs in: the page, the module variable
    [stockChart] (a reference into the chart objects created so far, or
    null), the chart objects, and the requests issued so far. *)
Record world := World {
  dom : elem_id -> element;
  stockChart : option nat;
  charts : list chart;
  requests : list request
}.

Definition update (id : elem_id) (f : element -> element)
  (d : elem_id -> element) : elem_id -> element :=
  fun j => if elem_eqb j id then f (d j) else d j.

(** At load: [let stockChart = null], no chart object, nothing sent. *)
Definition loaded (page : elem_id -> element) : world :=
  World page None [] [].

(** ** Statements: state passing with completions

    A statement ends normally, by [return], or by a thrown exception. *)
Inductive completion (A : Type) :=
| Normal (a : A)
| Return
| Throw (e : exn).
Arguments Normal {A} a.
Arguments Return {A}.
Arguments Throw {A} e.

Definition M (A : Type) : Type := world -> completion A * world.

Definition ret {A} (a : A) : M A := fun w => (Normal a, w).
Definition do_return {A} : M A := fun w => (Return, w).
Definition throw {A} (e : exn) : M A := fun w => (Throw e, w).

Definition bind {A B} (m : M A) (k : A -> M B) : M B :=
  fun w =>
    match m w with
    | (Normal a, w') => k a w'
    | (Return, w') => (Return, w')
    | (Throw e, w') => (Throw e, w')
    end.

Notation "'let!' x ':=' m 'in' k" := (bind m (fun x => k))
  (at level 10, x name, m at level 100, k at level 200).
Notation "m >> k" := (bind m (fun _ => k))
  (at level 100, k at level 200, right associativity).

Definition lift {A} (r : result A) : M A :=
  match r with
  | Ok a => ret a
  | Err e => throw e
  end.

(** [try { body } catch (err) { handler } finally { finalizer }]: the
    finalizer runs after every completion of the rest, and an abrupt
    completion of the finalizer replaces the pending one. *)
Definition try_catch_finally (body : M unit) (handler : exn -> M unit)
  (finalizer : M unit) : M unit :=
  fun w =>
    let '(c, w1) :=
      match body w with
      | (Throw e, w') => handler e w'
      | cw => cw
      end in
    match finalizer w1 with
    | (Normal _, w2) => (c, w2)
    | cw => cw
    end.

Definition modify (id : elem_id) (f : element -> element) : M unit :=
  fun w => (Normal tt, World (update id f (dom w)) (stockChart w) (charts w) (requests w)).

Definition set_innerText (id : elem_id) (s : jsstring) : M unit :=
  modify id (with_innerText s).
Definition set_display (id : elem_id) (s : jsstring) : M unit :=
  modify id (with_display s).
Definition set_className (id : elem_id) (s : jsstring) : M unit :=
  modify id (with_className s).

Definition read_value (id : elem_id) : M jsstring :=
  fun w => (Normal (value_of (dom w id)), w).

(** [el.innerText = v] for a value [v] computed by the right-hand side. *)
Definition assign_innerText (id : elem_id) (rhs : result value) : M unit :=
  let! v := lift rhs in
  let! s := lift (to_dom_string v) in
  set_innerText id s.

(** [fetch(url, init)]: the request leaves; the promise settles later. *)
Definition fetch (r : request) : M unit :=
  fun w => (Normal tt, World (dom w) (stockChart w) (charts w) (requests w ++ [r])).

(** [if (stockChart) stockChart.destroy();] *)
Definition destroy_old : M unit :=
  fun w =>
    match stockChart w with
    | Some i => (Normal tt, World (dom w) (stockChart w) (alter destroy i (charts w)) (requests w))
    | None => (Normal tt, w)
    end.

(** [stockChart = new Chart(ctx, cfg);] *)
Definition new_chart (cfg : value) : M unit :=
  fun w =>
    (Normal tt,
     World (dom w) (Some (length (charts w))) (charts w ++ [Chart cfg false]) (requests w)).

(* ===================================================================== *)
(** * The click handler                                                   *)
(* ===================================================================== *)

(** How the two awaited promises of a click settle: [fetch] rejects
    (transport failure), [response.json()] rejects (the body does not
    parse), or the body decodes to [data]. *)
Inductive outcome :=
| FetchRejects
| JsonRejects
| Decoded (data : value).

Definition await_response (o : outcome) : M value :=
  match o with
  | FetchRejects => throw NetworkError
  | JsonRejects => throw SyntaxError
  | Decoded data => ret data
  end.

Definition up_arrow : jsstring := [8593%N].
Definition down_arrow : jsstring := [8595%N].

Definition predict_request (ticker : jsstring) : request :=
  Request (lit "http://127.0.0.1:5000/predict") (lit "POST")
    (lit "application/json")
    (VObj [(lit "ticker", VStr ticker);
           (lit "days", VNum (of_Z 1));
           (lit "window", VNum (of_Z 5))]).

(** [`$${v}`] *)
Definition dollar (rhs : result value) : result value :=
  v <-r rhs;
  s <-r to_string v;
  Ok (VStr (lit "$" ++ s)).

(** [x.toFixed(2)] where [x] is the result of an arithmetic operator. *)
Definition to_fixed2 (rhs : result value) : result jsstring :=
  v <-r rhs;
  x <-r to_number v;
  Ok (toFixed 2 x).

(** [[...data.history.<field>, ...data.predicted.map(p => p.<key>)]] *)
Definition combined (data : value) (field key : jsstring) : result (list value) :=
  history <-r get data (lit "history");
  xs <-r get history field;
  hist <-r spread xs;
  predicted <-r get data (lit "predicted");
  ys <-r map_property predicted key;
  Ok (hist ++ ys).

(** The data of the predicted series:
    [[...new Array(data.history.closes.length - 1).fill(null),
      data.last_close, ...data.predicted.map(p => p.price)]] *)
Definition predicted_series (data : value) : result (list value) :=
  history <-r get data (lit "history");
  closes <-r get history (lit "closes");
  len <-r get closes (lit "length");
  n <-r to_number len;
  pad <-r array_fill_null (num_sub n (of_Z 1));
  last_close <-r get data (lit "last_close");
  predicted <-r get data (lit "predicted");
  prices <-r map_property predicted (lit "price");
  Ok (pad ++ [last_close] ++ prices).

Definition shown (text : jsstring) : value :=
  VObj [(lit "display", VBool true); (lit "text", VStr text)].

Definition chart_options : value :=
  VObj [(lit "responsive", VBool true);
        (lit "plugins",
          VObj [(lit "legend", VObj [(lit "display", VBool true)])]);
        (lit "scales",
          VObj [(lit "x", VObj [(lit "title", shown (lit "Date"))]);
                (lit "y", VObj [(lit "title", shown (lit "Price (USD)"))])])].

(** The configuration object literal passed to [new Chart]. *)
Definition config_literal (labels : list value) (closes : value)
  (series : list value) : value :=
  VObj
    [(lit "type", VStr (lit "line"));
     (lit "data",
       VObj [(lit "labels", VArr labels);
             (lit "datasets",
               VArr [VObj [(lit "label", VStr (lit "Historical"));
                           (lit "data", closes);
                           (lit "borderColor", VStr (lit "blue"));
                           (lit "tension", VNum (of_Q false (2 # 10)))];
                     VObj [(lit "label", VStr (lit "Predicted"));
                           (lit "data", VArr series);
                           (lit "borderColor", VStr (lit "red"));
                           (lit "borderDash",
                             VArr [VNum (of_Z 5); VNum (of_Z 5)]);
                           (lit "tension", VNum (of_Q false (2 # 10)))]])]);
     (lit "options", chart_options)].

Definition chart_config (data : value) (labels : list value) : result value :=
  history <-r get data (lit "history");
  closes <-r get history (lit "closes");
  series <-r predicted_series data;
  Ok (config_literal labels closes series).

(** Lines 38 to 51, "Fill in prediction card" and "Badge". *)
Definition fill_prediction_card (data : value) : M unit :=
  assign_innerText TickerDisplay (get data (lit "ticker")) >>
  assign_innerText CurrentPrice (dollar (get data (lit "last_close"))) >>
  assign_innerText PredictedPrice (dollar (get data (lit "predicted_price"))) >>
  let! change :=
    lift (to_fixed2 (predicted_price <-r get data (lit "predicted_price");
                     last_close <-r get data (lit "last_close");
                     arith num_sub predicted_price last_close)) in
  let! percent :=
    lift (to_fixed2 (last_close <-r get data (lit "last_close");
                     ratio <-r arith num_div (VStr change) last_close;
                     arith num_mul ratio (VNum (of_Z 100)))) in
  set_innerText PriceChange (lit "$" ++ change) >>
  set_innerText PercentChange (percent ++ lit "%") >>
  let! up := lift (ge (VStr change) (VNum (of_Z 0))) in
  set_innerText ChangeBadge
    (if up then lit "Bullish " ++ up_arrow else lit "Bearish " ++ down_arrow) >>
  let! up := lift (ge (VStr change) (VNum (of_Z 0))) in
  set_className ChangeBadge
    (lit "badge " ++ (if up then lit "positive" else lit "negative")).

(** Lines 54 and 55, "Show sections". *)
Definition show_sections : M unit :=
  set_display ResultsSection (lit "block") >>
  set_display InfoSection (lit "none").

(** Lines 58 to 95, "Chart data" and "Destroy old chart if exists". *)
Definition draw_chart (data : value) : M unit :=
  let! labels := lift (combined data (lit "dates") (lit "date")) in
  let! prices := lift (combined data (lit "closes") (lit "price")) in
  destroy_old >>
  let! cfg := lift (chart_config data labels) in
  new_chart cfg.

(** Lines 31 to 95: what the try block does with the decoded body. *)
Definition render (data : value) : M unit :=
  let! err := lift (get data (lit "error")) in
  if to_boolean err then
    assign_innerText ErrorMessage (get data (lit "error")) >>
    set_display ErrorMessage (lit "block") >>
    do_return
  else
    fill_prediction_card data >>
    show_sections >>
    draw_chart data.

Definition on_error (err : exn) : M unit :=
  set_innerText ErrorMessage (lit "Error connecting to server.") >>
  set_display ErrorMessage (lit "block").

(** Reset button state *)
Definition reset_button : M unit :=
  set_display BtnText (lit "inline") >>
  set_display BtnLoading (lit "none").

(** The handler, for a click whose awaited promises settle as [o]. *)
Definition handler (o : outcome) : M unit :=
  let! input := read_value TickerInput in
  let ticker := trim input in
  if str_eqb ticker [] then
    set_innerText ErrorMessage (lit "Please enter a stock ticker!") >>
    set_display ErrorMessage (lit "block") >>
    do_return
  else
    set_display ErrorMessage (lit "none") >>
    (* Show loading spinner *)
    set_display BtnText (lit "none") >>
    set_display BtnLoading (lit "inline-flex") >>
    try_catch_finally
      (fetch (predict_request ticker) >>
       let! data := await_response o in
       render data)
      on_error
      reset_button.

(** The state a click leaves behind. *)
Definition click (o : outcome) (w : world) : world := snd (handler o w).

(** ** Overlapping clicks

    The handler gives up control only at its awaits, and touches neither
    the page nor [stockChart] between the two of them: a click runs
    [click_start] when the button is pressed and [click_resume] when its
    promises have settled, and nothing it needs is kept in between. *)
Definition click_start : M unit :=
  let! input := read_value TickerInput in
  let ticker := trim input in
  if str_eqb ticker [] then
    set_innerText ErrorMessage (lit "Please enter a stock ticker!") >>
    set_display ErrorMessage (lit "block") >>
    do_return
  else
    set_display ErrorMessage (lit "none") >>
    set_display BtnText (lit "none") >>
    set_display BtnLoading (lit "inline-flex") >>
    fetch (predict_request ticker).

Definition click_resume (o : outcome) : M unit :=
  try_catch_finally
    (let! data := await_response o in render data)
    on_error
    reset_button.

(** The browser between two events: the page and the number of clicks
    that are waiting for their response. *)
Record system := System {
  page : world;
  pending : nat
}.

Inductive event :=
| Edit (text : jsstring)
| Click
| Settle (o : outcome).

Definition edit (text : jsstring) (w : world) : world :=
  World (update TickerInput (with_value text) (dom w))
    (stockChart w) (charts w) (requests w).

Definition step (s : system) (e : event) : system :=
  match e with
  | Edit text => System (edit text (page s)) (pending s)
  | Click =>
      match click_start (page s) with
      | (Normal _, w) => System w (S (pending s))
      | (_, w) => System w (pending s)
      end
  | Settle o =>
      match pending s with
      | O => s
      | S n => System (snd (click_resume o (page s))) n
      end
  end.

Definition run (events : list event) (s : system) : system :=
  fold_left step events s.

(** ** Observations *)

Definition live (c : chart) : bool := negb (destroyed c).

(** The chart objects that are alive. *)
Definition live_charts (w : world) : list chart := filter (fun c => live c = true) (charts w).

(** Every live chart object is the one [stockChart] refers to. *)
Definition only_current_live (w : world) : Prop :=
  forall i c, charts w !! i = Some c -> live c = true -> stockChart w = Some i.

Definition no_live (w : world) : Prop :=
  forall i c, charts w !! i = Some c -> live c = false.

Definition button_normal (w : world) : Prop :=
  display (dom w BtnText) = lit "inline" /\ display (dom w BtnLoading) = lit "none".

Definition ticker_of (w : world) : jsstring := trim (value_of (dom w TickerInput)).

Definition blank : element := Element [] [] [] [].

(** A page whose elements carry no text and no inline style, with [text]
    typed into the ticker field. *)
Definition fresh_page (text : jsstring) : elem_id -> element :=
  update TickerInput (with_value text) (fun _ => blank).

(** The class names of an element. *)
Fixpoint words (s : jsstring) (cur : jsstring) : list jsstring :=
  match s with
  | [] => match cur with [] => [] | _ => [cur] end
  | c :: s' =>
      if is_white c
      then match cur with [] => words s' [] | _ => cur :: words s' [] end
      else words s' (cur ++ [c])
  end.

Definition has_class (name : jsstring) (e : element) : bool :=
  existsb (str_eqb name) (words (className e) []).

(** What a chart object was given to draw. *)
Definition chart_labels (c : chart) : result value :=
  d <-r get (config c) (lit "data");
  get d (lit "labels").

Definition dataset_data (i : nat) (c : chart) : result value :=
  d <-r get (config c) (lit "data");
  sets <-r get d (lit "datasets");
  match sets with
  | VArr l => match l !! i with
              | Some set => get set (lit "data")
              | None => Ok VUndefined
              end
  | _ => Ok VUndefined
  end.

(** ** Well-formed responses

    The response payload of the prediction endpoint:
    [{ticker, last_close, predicted_price, history: {dates: [string],
    closes: [number]}, predicted: [{date: string, price: number}],
    error?: string}].  Arrays hold fewer than [2^32] items, and numbers
    are binary64 values other than NaN. *)

Definition is_string (v : value) : bool :=
  match v with
  | VStr _ => true
  | _ => false
  end.

Definition is_number (v : value) : bool :=
  match v with
  | VNum x => is_json_number x
  | _ => false
  end.

Definition is_array_of (p : value -> bool) (v : value) : bool :=
  match v with
  | VArr l => (Z.of_nat (length l) <? 2 ^ 32)%Z && forallb p l
  | _ => false
  end.

Definition has_field (p : value -> bool) (k : jsstring) (v : value) : bool :=
  match v with
  | VObj fields =>
      match own k fields with
      | Some x => p x
      | None => false
      end
  | _ => false
  end.

Definition is_history (v : value) : bool :=
  has_field (is_array_of is_string) (lit "dates") v
  && has_field (is_array_of is_number) (lit "closes") v.

Definition is_prediction (v : value) : bool :=
  has_field is_string (lit "date") v && has_field is_number (lit "price") v.

Definition well_formed (data : value) : bool :=
  has_field is_string (lit "ticker") data
  && has_field is_number (lit "last_close") data
  && has_field is_number (lit "predicted_price") data
  && has_field is_history (lit "history") data
  && has_field (is_array_of is_prediction) (lit "predicted") data.

(** No error reported: the error field is absent or falsy. *)
Definition error_free (data : value) : bool :=
  match get data (lit "error") with
  | Ok err => negb (to_boolean err)
  | Err _ => false
  end.

(** The parts of a response. *)
Definition prop (v : value) (k : jsstring) : value :=
  match get v k with
  | Ok x => x
  | Err _ => VUndefined
  end.

Definition items (v : value) : list value :=
  match v with
  | VArr l => l
  | _ => []
  end.

Definition text_of (v : value) : jsstring :=
  match v with
  | VStr s => s
  | _ => []
  end.

Definition number_of (v : value) : number :=
  match v with
  | VNum x => x
  | _ => num_nan
  end.

Definition ticker (data : value) : jsstring := text_of (prop data (lit "ticker")).
Definition last_close (data : value) : number := number_of (prop data (lit "last_close")).
Definition predicted_price (data : value) : number :=
  number_of (prop data (lit "predicted_price")).
Definition history_dates (data : value) : list value :=
  items (prop (prop data (lit "history")) (lit "dates")).
Definition history_closes (data : value) : list value :=
  items (prop (prop data (lit "history")) (lit "closes")).
Definition predicted_dates (data : value) : list value :=
  map (fun p => prop p (lit "date")) (items (prop data (lit "predicted"))).
Definition predicted_prices (data : value) : list value :=
  map (fun p => prop p (lit "price")) (items (prop data (lit "predicted"))).

(** The texts of the prediction card. *)
Definition change_text (lc pp : number) : jsstring := toFixed 2 (num_sub pp lc).

Definition percent_text (lc pp : number) : jsstring :=
  toFixed 2 (num_mul (num_div (string_to_number (change_text lc pp)) lc) (of_Z 100)).

Definition rising (lc pp : number) : bool :=
  match num_compare (string_to_number (change_text lc pp)) (of_Z 0) with
  | Some Gt | Some Eq => true
  | _ => false
  end.

(** The result fields: the five texts of the card and the badge. *)
Definition result_field (id : elem_id) : bool :=
  match id with
  | TickerDisplay | CurrentPrice | PredictedPrice | PriceChange
  | PercentChange | ChangeBadge => true
  | _ => false
  end.

(** The remote failures of a click: the transport or the decoding
    throws, or the decoded body reports an error. *)
Definition remote_failure (o : outcome) : Prop :=
  match o with
  | FetchRejects | JsonRejects => True
  | Decoded data => exists err, get data (lit "error") = Ok err /\ to_boolean err = true
  end.

(** The page after lines 38 to 51 have run on a well-formed response. *)
Definition card (data : value) (d : elem_id -> element) : elem_id -> element :=
  let lc := last_close data in
  let pp := predicted_price data in
  update ChangeBadge
    (with_className
       (lit "badge " ++ (if rising lc pp then lit "positive" else lit "negative")))
    (update ChangeBadge
       (with_innerText
          (if rising lc pp then lit "Bullish " ++ up_arrow
           else lit "Bearish " ++ down_arrow))
       (update PercentChange (with_innerText (percent_text lc pp ++ lit "%"))
          (update PriceChange (with_innerText (lit "$" ++ change_text lc pp))
             (update PredictedPrice (with_innerText (lit "$" ++ num_to_string pp))
                (update CurrentPrice (with_innerText (lit "$" ++ num_to_string lc))
                   (update TickerDisplay (with_innerText (ticker data)) d)))))).

Definition sections (d : elem_id -> element) : elem_id -> element :=
  update InfoSection (with_display (lit "none"))
    (update ResultsSection (with_display (lit "block")) d).

Definition loading (d : elem_id -> element) : elem_id -> element :=
  update BtnLoading (with_display (lit "inline-flex"))
    (update BtnText (with_display (lit "none"))
       (update ErrorMessage (with_display (lit "none")) d)).

Definition reset (d : elem_id -> element) : elem_id -> element :=
  update BtnLoading (with_display (lit "none"))
    (update BtnText (with_display (lit "inline")) d).

Definition failed (message : jsstring) (d : elem_id -> element) : elem_id -> element :=
  update ErrorMessage (with_display (lit "block"))
    (update ErrorMessage (with_innerText message) d).

(** The data of the predicted series for a non-empty history. *)
Definition padded_series (data : value) : list value :=
  repeat VNull (length (history_closes data) - 1)
  ++ [VNum (last_close data)] ++ predicted_prices data.

(** A Number of 53 significant bits: the form of a positive integer. *)
Definition normalized (p : positive) : number :=
  S754_finite false (Pos.iter xO p (53 - digits2_pos p)) (Zpos (digits2_pos p) - 53).

(** ** Sample inputs *)

(** A body that only reports an error. *)
Definition no_data : value := VObj [(lit "error", VStr (lit "No data found"))].

Definition day (date : string) (price : Z) : value :=
  VObj [(lit "date", VStr (lit date)); (lit "price", VNum (of_Z price))].

(** A well-formed response for the given last close, predicted price and
    historical closes. *)
Definition quote_with (lc pp : Z) (dates : list string) (closes : list Z) : value :=
  VObj [(lit "ticker", VStr (lit "AAPL"));
        (lit "last_close", VNum (of_Z lc));
        (lit "predicted_price", VNum (of_Z pp));
        (lit "history",
          VObj [(lit "dates", VArr (map (fun d => VStr (lit d)) dates));
                (lit "closes", VArr (map (fun c => VNum (of_Z c)) closes))]);
        (lit "predicted", VArr [day "2024-01-04" pp])].

Definition quote (lc pp : Z) : value :=
  quote_with lc pp ["2024-01-02"; "2024-01-03"]%string [98; lc]%Z.

(** A well-formed response without history. *)
Definition empty_history : value := quote_with 100 105 [] [].

(** ** Auxiliary notions of the proofs *)

(** [m] leaves [stockChart] and the chart objects alone. *)
Definition chart_frame {A} (m : M A) : Prop :=
  forall w, stockChart (snd (m w)) = stockChart w /\ charts (snd (m w)) = charts w.

(** The chart objects after [if (stockChart) stockChart.destroy()]. *)
Definition destroy_current (w : world) : list chart :=
  match stockChart w with
  | Some i => alter destroy i (charts w)
  | None => charts w
  end.

(** The three things a click can do to the chart objects: nothing; call
    [destroy] on the current one and then fail to build the next; or
    call [destroy] on the current one and make a fresh one current. *)
Inductive chart_effect (w w' : world) : Prop :=
| effect_none :
    stockChart w' = stockChart w -> charts w' = charts w -> chart_effect w w'
| effect_destroyed :
    stockChart w' = stockChart w -> charts w' = destroy_current w ->
    chart_effect w w'
| effect_replaced cfg :
    stockChart w' = Some (length (charts w)) ->
    charts w' = destroy_current w ++ [Chart cfg false] ->
    chart_effect w w'.

(** The shape of a well-formed response: its fields, under the names the
    accessors above give to its parts. *)
Inductive shape (data : value) : Prop :=
| Shape (fields history : list (jsstring * value)) (predicted : list value) :
    data = VObj fields ->
    own (lit "ticker") fields = Some (VStr (ticker data)) ->
    own (lit "last_close") fields = Some (VNum (last_close data)) ->
    own (lit "predicted_price") fields = Some (VNum (predicted_price data)) ->
    own (lit "history") fields = Some (VObj history) ->
    own (lit "dates") history = Some (VArr (history_dates data)) ->
    own (lit "closes") history = Some (VArr (history_closes data)) ->
    (Z.of_nat (length (history_closes data)) < 2 ^ 32)%Z ->
    own (lit "predicted") fields = Some (VArr predicted) ->
    forallb is_prediction predicted = true ->
    predicted_dates data = map (fun p => prop p (lit "date")) predicted ->
    predicted_prices data = map (fun p => prop p (lit "price")) predicted ->
    shape data.

(** ** Further notions *)

(** [m] leaves the observation [proj] of the state alone. *)
Definition preserved {T A} (proj : world -> T) (m : M A) : Prop :=
  forall w, proj (snd (m w)) = proj w.

(** [m] never completes by [return]. *)
Definition falls_through {A} (m : M A) : Prop :=
  forall w, fst (m w) <> Return.

(** The element [id] of a state. *)
Definition element_of (id : elem_id) (w : world) : element := dom w id.

(** An object without its property [k]. *)
Definition without (k : jsstring) (fields : list (jsstring * value))
  : list (jsstring * value) :=
  List.filter (fun kv => negb (str_eqb k (fst kv))) fields.

(** The section [sec] of the page has [style.display] equal to [shown]. *)
Definition shows (sec : elem_id) (shown : jsstring) (w : world) : Prop :=
  display (dom w sec) = shown.

(** [m] keeps the property [P] of the state, however it completes. *)
Definition stable {A} (P : world -> Prop) (m : M A) : Prop :=
  forall w, P w -> P (snd (m w)).

(** The own properties of an object. *)
Definition fields_of (v : value) : list (jsstring * value) :=
  match v with
  | VObj fields => fields
  | _ => []
  end.


(** The number of clicks among the events. *)
Definition clicks (events : list event) : nat :=
  length (List.filter (fun e => match e with Click => true | _ => false end) events).

(** A request as the handler builds them: the fixed endpoint and a
    ticker that is not empty and has no whitespace at its ends. *)
Definition proper_request (r : request) : Prop :=
  exists t, r = predict_request t /\ t <> [] /\ trim t = t.

(* ===================================================================== *)
(** * Lemmas                                                              *)
(* ===================================================================== *)

(** ** Array lengths are exact Numbers *)

Lemma iter_pos_iter {A} (f : A -> A) n : forall x, SpecFloat.iter_pos f n x = Pos.iter f x n.
Proof.
  induction n as [n IH|n IH|]; intros x; cbn; rewrite ?IH; auto.
  rewrite !Pos.iter_swap. reflexivity.
Qed.

Lemma digits2_size p : digits2_pos p = Pos.size p.
Proof. induction p; cbn; congruence. Qed.

Lemma digits2_shift p k : digits2_pos (Pos.iter xO p k) = (digits2_pos p + k)%positive.
Proof.
  induction k using Pos.peano_ind.
  - cbn. lia.
  - rewrite Pos.iter_succ. cbn. rewrite IHk. lia.
Qed.

Lemma Zpos_shift p k : Zpos (Pos.iter xO p k) = (Zpos p * 2 ^ Zpos k)%Z.
Proof.
  induction k using Pos.peano_ind.
  - cbn. lia.
  - rewrite Pos.iter_succ, Pos2Z.inj_succ, Z.pow_succ_r by lia.
    rewrite Pos2Z.inj_xO, IHk. lia.
Qed.

Lemma shr_shift k : forall p,
  Pos.iter shr_1 (Build_shr_record (Zpos (Pos.iter xO p k)) false false) k
  = Build_shr_record (Zpos p) false false.
Proof.
  induction k using Pos.peano_ind; intros p.
  - reflexivity.
  - rewrite Pos.iter_succ_r, Pos.iter_succ. cbn [shr_1 orb]. apply IHk.
Qed.

Lemma digits_bound p k : (Zpos p < 2 ^ k)%Z -> (0 <= k)%Z -> (Zpos (digits2_pos p) <= k)%Z.
Proof.
  intros Hp Hk. rewrite digits2_size.
  pose proof (Pos.size_le p) as Hle.
  destruct (Z_le_gt_dec (Zpos (Pos.size p)) k) as [|Hgt]; [assumption|exfalso].
  assert (H1 : (2 ^ (k + 1) <= 2 ^ Zpos (Pos.size p))%Z) by (apply Z.pow_le_mono_r; lia).
  assert (H2 : (2 ^ Zpos (Pos.size p) <= 2 * Zpos p)%Z).
  { rewrite <- Pos2Z.inj_pow. lia. }
  rewrite Z.pow_add_r in H1 by lia. lia.
Qed.

Lemma shr_zero mrs e : shr mrs e 0 = (mrs, e).
Proof. reflexivity. Qed.

(** A 53-bit mantissa in the exponent range is already rounded. *)
Lemma round_aux_normal s m e :
  digits2_pos m = 53%positive -> (-1074 <= e <= 971)%Z ->
  binary_round_aux prec emax s (Zpos m) e loc_Exact = S754_finite s m e.
Proof.
  intros Hd He. unfold binary_round_aux, shr_fexp. cbn [Zdigits2]. rewrite Hd.
  assert (H0 : (fexp prec emax (53 + e) - e = 0)%Z)
    by (unfold fexp, SpecFloat.emin, prec, emax; lia).
  rewrite H0, shr_zero. cbn [shr_record_of_loc loc_of_shr_record shr_m round_nearest_even Zdigits2].
  rewrite Hd, H0, shr_zero. cbn [shr_m].
  replace (e <=? emax - prec)%Z with true; [reflexivity|].
  symmetry. apply Z.leb_le. unfold emax, prec. lia.
Qed.

(** Zero bits below a 53-bit mantissa are shifted out exactly. *)
Lemma round_aux_shifted s m k e :
  digits2_pos m = 53%positive -> (-1074 <= e + Zpos k <= 971)%Z ->
  binary_round_aux prec emax s (Zpos (Pos.iter xO m k)) e loc_Exact
  = S754_finite s m (e + Zpos k).
Proof.
  intros Hd He. unfold binary_round_aux, shr_fexp. cbn [Zdigits2].
  rewrite digits2_shift, Hd.
  assert (Hk : (fexp prec emax (Zpos (53 + k) + e) - e = Zpos k)%Z)
    by (unfold fexp, SpecFloat.emin, prec, emax; lia).
  rewrite Hk. cbn [shr shr_record_of_loc]. rewrite iter_pos_iter, shr_shift.
  cbn [loc_of_shr_record shr_m round_nearest_even Zdigits2]. rewrite Hd.
  assert (H0 : (fexp prec emax (53 + (e + Zpos k)) - (e + Zpos k) = 0)%Z)
    by (unfold fexp, SpecFloat.emin, prec, emax; lia).
  rewrite H0, shr_zero. cbn [shr_m].
  replace (e + Zpos k <=? emax - prec)%Z with true; [reflexivity|].
  symmetry. apply Z.leb_le. unfold emax, prec. lia.
Qed.

(** An integer below [2^52] is a Number: its mantissa is the integer
    shifted to 53 bits. *)
Lemma of_Z_small p :
  (Zpos (digits2_pos p) < 53)%Z -> of_Z (Zpos p) = normalized p.
Proof.
  intros Hd. unfold of_Z, normalized, binary_normalize, binary_round, shl_align.
  set (d := digits2_pos p) in *.
  assert (Hf : fexp prec emax (Zpos d + 0) = (Zpos d - 53)%Z)
    by (unfold fexp, SpecFloat.emin, prec, emax; lia).
  rewrite Hf.
  assert (Hs : (Zpos d - 53 - 0 = Zneg (53 - d))%Z) by lia.
  rewrite Hs. apply round_aux_normal; [|lia].
  rewrite digits2_shift. fold d. lia.
Qed.

Lemma digits2_pos_ge2 p : (1 < p)%positive -> (2 <= Zpos (digits2_pos p))%Z.
Proof. destruct p; cbn; lia. Qed.

Lemma num_sub_one p :
  (1 < p)%positive -> (Zpos (digits2_pos p) < 53)%Z ->
  num_sub (of_Z (Zpos p)) (of_Z 1) = of_Z (Zpos (Pos.pred p)).
Proof.
  intros H1 Hd.
  assert (Hdq : (Zpos (digits2_pos (Pos.pred p)) < 53)%Z).
  { apply Z.le_lt_trans with (Zpos (digits2_pos p)); [|assumption].
    apply digits_bound; [|lia].
    pose proof (Pos.size_gt p) as Hgt. rewrite digits2_size, <- Pos2Z.inj_pow. lia. }
  rewrite (of_Z_small p), (of_Z_small (Pos.pred p)) by assumption.
  change (of_Z 1) with (S754_finite false 4503599627370496 (-52)).
  unfold num_sub, normalized, SFsub.
  set (d := digits2_pos p) in *. set (q := Pos.pred p) in *. set (dq := digits2_pos q) in *.
  pose proof (digits2_pos_ge2 p H1) as Hd2. fold d in Hd2.
  replace (Z.min (Zpos d - 53) (-52)) with (-52)%Z by lia.
  unfold shl_align.
  replace (-52 - (Zpos d - 53))%Z with (Zneg (d - 1)) by lia.
  replace (-52 - -52)%Z with 0%Z by lia. cbn [fst cond_Zopp].
  rewrite <- Pos.iter_add.
  replace (d - 1 + (53 - d))%positive with 52%positive by lia.
  assert (Hdiff : (Zpos (Pos.iter xO p 52) - 4503599627370496 = Zpos (Pos.iter xO q 52))%Z).
  { rewrite !Zpos_shift. unfold q. change (2 ^ 52)%Z with 4503599627370496%Z. lia. }
  rewrite Hdiff. unfold binary_normalize, binary_round.
  rewrite digits2_shift. fold dq.
  assert (Hf : fexp prec emax (Zpos (dq + 52) + -52) = (Zpos dq - 53)%Z)
    by (unfold fexp, SpecFloat.emin, prec, emax; lia).
  rewrite Hf. unfold shl_align.
  destruct (Pos.eq_dec dq 1%positive) as [E|E].
  - replace (Zpos dq - 53 - -52)%Z with 0%Z by lia. cbv iota beta.
    rewrite round_aux_normal; [|rewrite digits2_shift; fold dq; lia|lia].
    rewrite E. reflexivity.
  - replace (Zpos dq - 53 - -52)%Z with (Zpos (dq - 1)) by lia.
    replace 52%positive with (dq - 1 + (53 - dq))%positive at 1 by lia.
    rewrite Pos.iter_add, round_aux_shifted; [f_equal; lia| |lia].
    rewrite digits2_shift. fold dq. lia.
Qed.

Lemma fill_null_of_Z q :
  (Zpos q < 2 ^ 32)%Z ->
  array_fill_null (of_Z (Zpos q)) = Ok (repeat VNull (Pos.to_nat q)).
Proof.
  intros Hq. pose proof (digits_bound q 32 Hq ltac:(lia)) as Hd.
  rewrite of_Z_small by lia. unfold normalized, array_fill_null, magnitude.
  set (d := digits2_pos q) in *.
  replace (Zpos d - 53)%Z with (Zneg (53 - d)) by lia.
  unfold Qpow, Qfloor, Qmult, inject_Z, Qeq_bool, Qnum, Qden.
  rewrite !Z.mul_1_r, Pos.mul_1_l.
  rewrite Zpos_shift, Pos2Z.inj_pow, Z.div_mul by lia.
  rewrite Z.eqb_refl. cbn [andb].
  replace (Zpos q <? 2 ^ 32)%Z with true by (symmetry; apply Z.ltb_lt; assumption).
  rewrite Z2Nat.inj_pos. reflexivity.
Qed.

(** [new Array(length - 1).fill(null)] for the length of an array. *)
Lemma fill_null_length (n : nat) :
  (Z.of_nat n < 2 ^ 32)%Z ->
  array_fill_null (num_sub (of_Z (Z.of_nat n)) (of_Z 1)) =
  match n with
  | O => Err RangeError
  | S m => Ok (repeat VNull m)
  end.
Proof.
  intros Hn. destruct n as [|m]; [reflexivity|].
  destruct m as [|m]; [reflexivity|].
  replace (Z.of_nat (S (S m))) with (Zpos (Pos.of_succ_nat (S m))) in * by lia.
  set (p := Pos.of_succ_nat (S m)) in *.
  assert (Hp : (1 < p)%positive) by (unfold p; lia).
  rewrite num_sub_one; [|assumption|pose proof (digits_bound p 32 Hn); lia].
  rewrite fill_null_of_Z by lia.
  do 2 f_equal. unfold p. lia.
Qed.

Lemma handler_split o w :
  handler o w = (click_start >> click_resume o) w.
Proof.
  unfold handler, click_start, click_resume, bind, read_value.
  destruct (str_eqb _ []); reflexivity.
Qed.

Lemma str_eqb_nil s : str_eqb s [] = false <-> s <> [].
Proof. destruct s; cbn; split; congruence. Qed.

(** ** What a statement does to the chart objects *)

Create HintDb frame.

Lemma frame_ret {A} (a : A) : chart_frame (ret a).
Proof. intros w; auto. Qed.

Lemma frame_throw {A} e : chart_frame (@throw A e).
Proof. intros w; auto. Qed.

Lemma frame_return {A} : chart_frame (@do_return A).
Proof. intros w; auto. Qed.

Lemma frame_lift {A} (r : result A) : chart_frame (lift r).
Proof. destruct r; intros w; auto. Qed.

Lemma frame_modify id f : chart_frame (modify id f).
Proof. intros w; auto. Qed.

Lemma frame_fetch r : chart_frame (fetch r).
Proof. intros w; auto. Qed.

Lemma frame_read id : chart_frame (read_value id).
Proof. intros w; auto. Qed.

Lemma frame_bind {A B} (m : M A) (k : A -> M B) :
  chart_frame m -> (forall a, chart_frame (k a)) -> chart_frame (bind m k).
Proof.
  intros Hm Hk w. unfold bind. specialize (Hm w).
  destruct (m w) as [[a| |e] w1]; cbn in *; auto.
  destruct (Hk a w1) as [-> ->]. auto.
Qed.

Lemma frame_if {A} (b : bool) (m1 m2 : M A) :
  chart_frame m1 -> chart_frame m2 -> chart_frame (if b then m1 else m2).
Proof. destruct b; auto. Qed.

#[local] Hint Resolve frame_ret frame_throw frame_return frame_lift frame_modify
  frame_fetch frame_read : frame.

Ltac frame :=
  repeat first
    [ apply frame_bind; [|intros ?]
    | apply frame_if
    | solve [auto with frame]
    | progress unfold set_innerText, set_display, set_className, assign_innerText ].

Lemma frame_card data : chart_frame (fill_prediction_card data).
Proof. unfold fill_prediction_card. frame. Qed.

Lemma frame_sections : chart_frame show_sections.
Proof. unfold show_sections. frame. Qed.

Lemma frame_on_error e : chart_frame (on_error e).
Proof. unfold on_error. frame. Qed.

Lemma frame_reset : chart_frame reset_button.
Proof. unfold reset_button. frame. Qed.

Lemma frame_click_start : chart_frame click_start.
Proof. unfold click_start. frame. Qed.

Lemma chart_effect_frame w w1 w2 :
  stockChart w1 = stockChart w -> charts w1 = charts w ->
  chart_effect w1 w2 -> chart_effect w w2.
Proof.
  intros Hs Hc [H1 H2|H1 H2|cfg H1 H2]; unfold destroy_current in *;
    rewrite Hs, Hc in *; [apply effect_none | apply effect_destroyed | eapply effect_replaced]; eauto.
Qed.

Lemma chart_effect_then_frame w w1 w2 :
  chart_effect w w1 -> stockChart w2 = stockChart w1 -> charts w2 = charts w1 ->
  chart_effect w w2.
Proof.
  intros [H1 H2|H1 H2|cfg H1 H2] Hs Hc; rewrite <- Hs, <- Hc in *;
    [apply effect_none | apply effect_destroyed | eapply effect_replaced]; eauto.
Qed.

Lemma effect_bind_frame {A B} (m : M A) (k : A -> M B) w :
  chart_frame m -> (forall a w1, chart_effect w1 (snd (k a w1))) ->
  chart_effect w (snd (bind m k w)).
Proof.
  intros Hm Hk. unfold bind. destruct (Hm w) as [Hs Hc].
  destruct (m w) as [[a| |e] w1]; cbn [snd] in *; try now apply effect_none.
  apply chart_effect_frame with w1; auto.
Qed.

Lemma draw_chart_effect data w : chart_effect w (snd (draw_chart data w)).
Proof.
  unfold draw_chart, bind.
  destruct (combined data (lit "dates") (lit "date")) as [labels|e]; cbn; [|(apply effect_none; reflexivity)].
  destruct (combined data (lit "closes") (lit "price")) as [prices|e]; cbn; [|(apply effect_none; reflexivity)].
  assert (Hd : stockChart (snd (destroy_old w)) = stockChart w
               /\ charts (snd (destroy_old w)) = destroy_current w
               /\ fst (destroy_old w) = Normal tt).
  { unfold destroy_old, destroy_current. destruct (stockChart w) eqn:E; cbn; auto. }
  destruct (destroy_old w) as [c w1]; cbn in Hd. destruct Hd as (Hs & Hc & ->).
  destruct (chart_config data labels) as [cfg|e]; cbn.
  - apply effect_replaced with cfg; rewrite ?Hc; auto.
    f_equal. unfold destroy_current. destruct (stockChart w); auto.
    now rewrite length_alter.
  - now apply effect_destroyed.
Qed.

Lemma render_effect data w : chart_effect w (snd (render data w)).
Proof.
  unfold render. unfold bind at 1.
  destruct (get data (lit "error")) as [err|e]; cbn [lift]; [|(apply effect_none; reflexivity)].
  cbn [ret throw]. destruct (to_boolean err).
  - assert (F : forall rhs,
               chart_frame (assign_innerText ErrorMessage rhs >>
                            set_display ErrorMessage (lit "block") >> @do_return unit))
      by (intros; frame).
    destruct (F (Ok err) w). now apply effect_none.
  - apply effect_bind_frame; [apply frame_card|intros _ w1].
    apply effect_bind_frame; [apply frame_sections|intros _ w2].
    apply draw_chart_effect.
Qed.

Lemma effect_try body handler finalizer w :
  chart_effect w (snd (body w)) ->
  (forall e, chart_frame (handler e)) -> chart_frame finalizer ->
  chart_effect w (snd (try_catch_finally body handler finalizer w)).
Proof.
  intros Hb Hh Hf. unfold try_catch_finally.
  destruct (body w) as [[a| |e] w1]; cbn [snd] in Hb.
  3: { destruct (Hh e w1) as [Hs Hc]. destruct (handler e w1) as [c1 w2]; cbn [snd] in *.
       destruct (Hf w2) as [Hs2 Hc2].
       destruct (finalizer w2) as [[[]| |e2] w3]; cbn [snd] in *;
         eapply chart_effect_then_frame; eauto; congruence. }
  all: destruct (Hf w1) as [Hs2 Hc2];
    destruct (finalizer w1) as [[[]| |e2] w3]; cbn [snd] in *;
    eapply chart_effect_then_frame; eauto.
Qed.

Lemma click_resume_effect o w : chart_effect w (snd (click_resume o w)).
Proof.
  apply effect_try; [|apply frame_on_error|apply frame_reset].
  destruct o; cbn; try now apply effect_none. apply render_effect.
Qed.

(** ** At most one live chart object *)

Lemma length_destroy_current w : length (destroy_current w) = length (charts w).
Proof. unfold destroy_current. destruct (stockChart w); auto using length_alter. Qed.

Lemma destroy_current_no_live w i c :
  only_current_live w -> destroy_current w !! i = Some c -> live c = false.
Proof.
  unfold destroy_current. intros Hinv Hi.
  destruct (stockChart w) as [j|] eqn:Hj.
  - destruct (decide (j = i)) as [->|Hne].
    + rewrite list_lookup_alter_eq in Hi.
      destruct (charts w !! i); inversion Hi. reflexivity.
    + rewrite list_lookup_alter_ne in Hi by assumption.
      destruct (live c) eqn:Hl; [|reflexivity].
      specialize (Hinv i c Hi Hl). congruence.
  - destruct (live c) eqn:Hl; [|reflexivity].
    specialize (Hinv i c Hi Hl). congruence.
Qed.

Lemma loaded_only_current_live page0 : only_current_live (loaded page0).
Proof. intros i c Hi. destruct i; discriminate Hi. Qed.

Lemma chart_effect_preserves w w' :
  only_current_live w -> chart_effect w w' -> only_current_live w'.
Proof.
  intros Hinv [Hs Hc|Hs Hc|cfg Hs Hc] i c Hi Hl; rewrite Hc in Hi.
  - rewrite Hs. eauto.
  - rewrite (destroy_current_no_live w i c) in Hl by assumption. discriminate.
  - apply lookup_app_Some in Hi as [Hi|[Hle Hi]].
    + rewrite (destroy_current_no_live w i c) in Hl by assumption. discriminate.
    + rewrite length_destroy_current in *.
      apply list_lookup_singleton_Some in Hi as [Hi _].
      rewrite Hs. f_equal. lia.
Qed.

Lemma at_most_one (P : chart -> Prop) `{!forall c, Decision (P c)} (l : list chart) :
  (forall i j c d, l !! i = Some c -> l !! j = Some d -> P c -> P d -> i = j) ->
  length (filter P l) <= 1.
Proof.
  induction l as [|a l IH]; intros Huniq; [cbn; lia|].
  rewrite filter_cons. destruct (decide (P a)) as [Ha|Ha].
  - assert (filter P l = []) as ->; [|cbn; lia].
    destruct (filter P l) as [|b l'] eqn:E; [reflexivity|exfalso].
    assert (Hb : b ∈ filter P l) by (rewrite E; left).
    apply list_elem_of_filter in Hb as [Pb Hb].
    apply list_elem_of_lookup in Hb as [j Hj].
    specialize (Huniq 0 (S j) a b eq_refl Hj Ha Pb). discriminate.
  - apply IH. intros i j c d Hi Hj Pc Pd.
    specialize (Huniq (S i) (S j) c d Hi Hj Pc Pd). congruence.
Qed.

Lemma only_current_live_count w :
  only_current_live w -> length (live_charts w) <= 1.
Proof.
  intros Hinv. apply at_most_one. intros i j c d Hi Hj Hc Hd.
  pose proof (Hinv i c Hi Hc). pose proof (Hinv j d Hj Hd). congruence.
Qed.

Lemma edit_preserves text w : only_current_live w -> only_current_live (edit text w).
Proof. intros H. exact H. Qed.

Lemma step_preserves s e :
  only_current_live (page s) -> only_current_live (page (step s e)).
Proof.
  intros Hinv. destruct e as [text| |o]; cbn [step].
  - exact Hinv.
  - destruct (frame_click_start (page s)) as [Hs Hc].
    destruct (click_start (page s)) as [[[]| |e] w]; cbn [page snd] in *;
      (apply chart_effect_preserves with (page s); [assumption|now apply effect_none]).
  - destruct (pending s); [assumption|]. cbn [page].
    eapply chart_effect_preserves; [eassumption|apply click_resume_effect].
Qed.

Lemma run_preserves events s :
  only_current_live (page s) -> only_current_live (page (run events s)).
Proof.
  revert s. induction events as [|e events IH]; intros s Hinv; [assumption|].
  cbn. apply IH, step_preserves, Hinv.
Qed.

Lemma click_effect o w : chart_effect w (click o w).
Proof.
  unfold click. rewrite handler_split.
  apply effect_bind_frame; [apply frame_click_start|]. intros _ w1.
  apply click_resume_effect.
Qed.

(** ** Running the handler on a well-formed response *)

Lemma get_own fields k v : own k fields = Some v -> get (VObj fields) k = Ok v.
Proof. intros H. cbn. now rewrite H. Qed.

Lemma has_field_inv p k v :
  has_field p k v = true ->
  exists fields x, v = VObj fields /\ own k fields = Some x /\ p x = true.
Proof.
  destruct v as [| | | | | |fields]; try discriminate. cbn.
  destruct (own k fields) as [x|] eqn:E; [|discriminate]. eauto.
Qed.

Lemma is_string_inv v : is_string v = true -> exists s, v = VStr s.
Proof. destruct v; try discriminate; eauto. Qed.

Lemma is_number_inv v : is_number v = true -> exists x, v = VNum x.
Proof. destruct v; try discriminate; eauto. Qed.

Lemma is_array_of_inv p v :
  is_array_of p v = true ->
  exists l, v = VArr l /\ (Z.of_nat (length l) < 2 ^ 32)%Z /\ forallb p l = true.
Proof.
  destruct v as [| | | | |l|]; try discriminate. cbn.
  intros [H1 H2]%andb_true_iff. apply Z.ltb_lt in H1. eauto.
Qed.

Lemma well_formed_shape data : well_formed data = true -> shape data.
Proof.
  unfold well_formed. rewrite !andb_true_iff. intros [[[[Ht Hl] Hp] Hh] Hq].
  apply has_field_inv in Ht as (fs & vt & -> & Ht & [t ->]%is_string_inv).
  apply has_field_inv in Hl as (fs1 & vl & [= <-] & Hl & [lc ->]%is_number_inv).
  apply has_field_inv in Hp as (fs1 & vp & [= <-] & Hp & [pp ->]%is_number_inv).
  apply has_field_inv in Hh as (fs1 & vh & [= <-] & Hh & Hhist).
  apply has_field_inv in Hq as (fs1 & vq & [= <-] & Hq & (ps & -> & _ & Hps)%is_array_of_inv).
  unfold is_history in Hhist. apply andb_true_iff in Hhist as [Hd Hc].
  apply has_field_inv in Hd as (hs & vd & -> & Hd & (ds & -> & _ & _)%is_array_of_inv).
  apply has_field_inv in Hc as (hs1 & vc & [= <-] & Hc & (cs & -> & Hlen & _)%is_array_of_inv).
  assert (E1 : history_closes (VObj fs) = cs).
  { unfold history_closes, prop. cbn. rewrite Hh. cbn. now rewrite Hc. }
  assert (E2 : history_dates (VObj fs) = ds).
  { unfold history_dates, prop. cbn. rewrite Hh. cbn. now rewrite Hd. }
  apply (Shape _ fs hs ps); rewrite ?E1, ?E2; auto.
  - unfold ticker, prop. cbn. now rewrite Ht.
  - unfold last_close, prop. cbn. now rewrite Hl.
  - unfold predicted_price, prop. cbn. now rewrite Hp.
  - unfold predicted_dates, prop at 2. cbn. now rewrite Hq.
  - unfold predicted_prices, prop at 2. cbn. now rewrite Hq.
Qed.

Lemma map_property_objects k ps :
  forallb is_prediction ps = true ->
  map_property (VArr ps) k = Ok (map (fun p => prop p k) ps).
Proof.
  cbn. induction ps as [|p ps IH]; cbn; [reflexivity|].
  intros [Hp Hps]%andb_true_iff. rewrite (IH Hps).
  unfold is_prediction in Hp. apply andb_true_iff in Hp as [Hp _].
  apply has_field_inv in Hp as (fs & x & -> & _ & _). reflexivity.
Qed.

Lemma combined_shape data field key :
  shape data ->
  (field = lit "dates" \/ field = lit "closes") ->
  combined data field key =
  Ok (items (prop (prop data (lit "history")) field)
      ++ map (fun p => prop p key) (items (prop data (lit "predicted")))).
Proof.
  intros [fs hs ps -> _ _ _ Hh Hd Hc _ Hp Hps _ _] Hf. unfold combined.
  rewrite (get_own _ _ _ Hh), (get_own _ _ _ Hp). cbn [rbind].
  rewrite map_property_objects by assumption. unfold prop.
  rewrite (get_own _ _ _ Hh), (get_own _ _ _ Hp).
  destruct Hf as [-> | ->].
  - rewrite (get_own _ _ _ Hd). reflexivity.
  - rewrite (get_own _ _ _ Hc). reflexivity.
Qed.

Lemma predicted_series_shape data :
  shape data ->
  predicted_series data =
  match history_closes data with
  | [] => Err RangeError
  | _ :: _ => Ok (padded_series data)
  end.
Proof.
  intros [fs hs ps -> _ Hl _ Hh _ Hc Hlen Hp Hps _ Hpp]. unfold predicted_series, padded_series.
  rewrite (get_own _ _ _ Hh), (get_own _ _ _ Hp), (get_own _ _ _ Hl). cbn [rbind].
  rewrite (get_own _ _ _ Hc). cbn [rbind get]. 
  change (str_eqb (lit "length") (lit "length")) with true. cbv iota.
  unfold length_value. cbn [to_number rbind].
  rewrite fill_null_length by assumption. rewrite Hpp.
  destruct (history_closes (VObj fs)) as [|c cs]; cbn [rbind]; [reflexivity|].
  rewrite map_property_objects by assumption. cbn [rbind].
  change (length (c :: cs) - 1) with (length cs - 0). rewrite Nat.sub_0_r. reflexivity.
Qed.

Lemma chart_config_shape data labels :
  shape data ->
  chart_config data labels =
  match history_closes data with
  | [] => Err RangeError
  | _ :: _ => Ok (config_literal labels (VArr (history_closes data)) (padded_series data))
  end.
Proof.
  intros Hs. unfold chart_config. rewrite predicted_series_shape by assumption.
  destruct Hs as [fs hs ps -> _ _ _ Hh _ Hc _ _ _ _ _].
  rewrite (get_own _ _ _ Hh). cbn [rbind]. rewrite (get_own _ _ _ Hc). cbn [rbind].
  destruct (history_closes (VObj fs)); reflexivity.
Qed.

Lemma card_run data w :
  shape data ->
  fill_prediction_card data w =
  (Normal tt, World (card data (dom w)) (stockChart w) (charts w) (requests w)).
Proof.
  intros [fs hs ps -> Ht Hl Hp _ _ _ _ _ _ _ _]. unfold fill_prediction_card.
  rewrite (get_own _ _ _ Ht), (get_own _ _ _ Hl), (get_own _ _ _ Hp).
  reflexivity.
Qed.

Lemma destroy_old_run w :
  destroy_old w =
  (Normal tt, World (dom w) (stockChart w) (destroy_current w) (requests w)).
Proof.
  destruct w as [d [i|] cs rs]; reflexivity.
Qed.

Lemma draw_chart_shape data w :
  shape data ->
  draw_chart data w =
  match history_closes data with
  | [] =>
      (Throw RangeError,
       World (dom w) (stockChart w) (destroy_current w) (requests w))
  | _ :: _ =>
      (Normal tt,
       World (dom w) (Some (length (charts w)))
         (destroy_current w
          ++ [Chart (config_literal (history_dates data ++ predicted_dates data)
                       (VArr (history_closes data)) (padded_series data)) false])
         (requests w))
  end.
Proof.
  intros Hs. unfold draw_chart.
  rewrite !combined_shape by auto. cbn [lift]. unfold bind at 1 2. cbn [ret].
  unfold bind. rewrite destroy_old_run.
  rewrite chart_config_shape by assumption.
  fold (history_dates data). fold (predicted_dates data).
  destruct (history_closes data); [reflexivity|].
  unfold lift, ret, new_chart. cbn [charts dom requests].
  rewrite length_destroy_current. reflexivity.
Qed.

Lemma error_free_get data :
  error_free data = true ->
  exists err, get data (lit "error") = Ok err /\ to_boolean err = false.
Proof.
  unfold error_free. destruct (get data (lit "error")) as [err|]; [|discriminate].
  intros H%negb_true_iff. eauto.
Qed.

Lemma render_shape data w :
  shape data -> error_free data = true ->
  render data w = draw_chart data (World (sections (card data (dom w))) (stockChart w) (charts w) (requests w)).
Proof.
  intros Hs (err & He & Hb)%error_free_get. unfold render.
  rewrite He. cbn [lift]. unfold bind at 1. cbn [ret]. rewrite Hb.
  unfold bind at 1. rewrite card_run by assumption. reflexivity.
Qed.

Lemma click_start_nonblank w :
  ticker_of w <> [] ->
  click_start w =
  (Normal tt,
   World (loading (dom w)) (stockChart w) (charts w)
     (requests w ++ [predict_request (ticker_of w)])).
Proof.
  intros Ht%str_eqb_nil. unfold ticker_of in *.
  unfold click_start, bind, read_value. cbn [value_of]. rewrite Ht. reflexivity.
Qed.

Lemma handler_nonblank o w :
  ticker_of w <> [] ->
  handler o w =
  click_resume o
    (World (loading (dom w)) (stockChart w) (charts w)
       (requests w ++ [predict_request (ticker_of w)])).
Proof.
  intros Ht. rewrite handler_split. unfold bind at 1.
  rewrite click_start_nonblank by assumption. reflexivity.
Qed.

(** The whole click on a well-formed, error-free response. *)
Lemma handler_shape data w :
  ticker_of w <> [] -> shape data -> error_free data = true ->
  handler (Decoded data) w =
  (Normal tt,
   match history_closes data with
   | [] =>
       World (reset (failed (lit "Error connecting to server.")
                       (sections (card data (loading (dom w))))))
         (stockChart w) (destroy_current w)
         (requests w ++ [predict_request (ticker_of w)])
   | _ :: _ =>
       World (reset (sections (card data (loading (dom w)))))
         (Some (length (charts w)))
         (destroy_current w
          ++ [Chart (config_literal (history_dates data ++ predicted_dates data)
                       (VArr (history_closes data)) (padded_series data)) false])
         (requests w ++ [predict_request (ticker_of w)])
   end).
Proof.
  intros Ht Hs He. rewrite handler_nonblank by assumption.
  unfold click_resume, try_catch_finally, bind. cbn [await_response ret].
  rewrite render_shape, draw_chart_shape by assumption.
  destruct (history_closes data); reflexivity.
Qed.

(* ===================================================================== *)
(** * The properties of the specification                                 *)
(* ===================================================================== *)

(** A click that nothing overlaps is the handler run from start to end. *)
Lemma click_events o w :
  page (run [Click; Settle o] (System w 0)) = click o w.
Proof.
  unfold click. rewrite handler_split. unfold run, bind. cbn [fold_left step page pending].
  destruct (click_start w) as [[[]| |e] w1]; reflexivity.
Qed.

Lemma click_resume_button o w : button_normal (snd (click_resume o w)).
Proof.
  unfold click_resume, try_catch_finally.
  destruct ((let! data := await_response o in render data) w) as [[a| |e] w1];
    [| |destruct (on_error e w1) as [c w2]]; split; reflexivity.
Qed.

Lemma blank_frame o w :
  ticker_of w = [] -> forall id, id <> ErrorMessage -> dom (click o w) id = dom w id.
Proof.
  intros Ht. unfold ticker_of in Ht.
  unfold click, handler, bind, read_value. cbn [value_of]. rewrite Ht. cbn.
  intros [] H; try reflexivity. congruence.
Qed.

(** C1. When the trimmed ticker is empty (blank or whitespace only), the
    handler writes the fixed validation message into the error element,
    shows it, and returns: the request log is unchanged (no network call,
    and no click is left pending), every other element of the page is
    untouched, and so are [stockChart] and the chart objects. *)
Theorem C1_blank_ticker_validation o w :
  ticker_of w = [] ->
  let w' := click o w in
  fst (handler o w) = Return /\
  innerText (dom w' ErrorMessage) = lit "Please enter a stock ticker!" /\
  display (dom w' ErrorMessage) = lit "block" /\
  className (dom w' ErrorMessage) = className (dom w ErrorMessage) /\
  (forall id, id <> ErrorMessage -> dom w' id = dom w id) /\
  requests w' = requests w /\
  (forall n, pending (step (System w n) Click) = n) /\
  stockChart w' = stockChart w /\
  charts w' = charts w.
Proof.
  intros Ht. unfold ticker_of in Ht.
  unfold click, handler, step, click_start, bind, read_value.
  cbn [page value_of]. rewrite Ht. cbn.
  repeat split; auto.
  intros [] H; try reflexivity. congruence.
Qed.

Lemma C1_witness :
  ticker_of (loaded (fresh_page (lit "   "))) = [] /\
  let w' := click FetchRejects (loaded (fresh_page (lit "   "))) in
  innerText (dom w' ErrorMessage) = lit "Please enter a stock ticker!" /\
  requests w' = [].
Proof.
  split; [reflexivity|].
  pose proof (C1_blank_ticker_validation FetchRejects
                (loaded (fresh_page (lit "   "))) eq_refl) as H.
  cbv zeta in H. split; [apply H|]. apply H.
Defined.

(** C2. When the decoded body has a non-empty string in its error field,
    the handler shows exactly that string in the error element and
    returns: the results section, the info section, the six result
    fields, [stockChart] and the chart objects are as they were. *)
Theorem C2_error_field_shown_verbatim w data message :
  ticker_of w <> [] ->
  get data (lit "error") = Ok (VStr message) ->
  message <> [] ->
  let w' := click (Decoded data) w in
  fst (handler (Decoded data) w) = Return /\
  innerText (dom w' ErrorMessage) = message /\
  display (dom w' ErrorMessage) = lit "block" /\
  dom w' ResultsSection = dom w ResultsSection /\
  dom w' InfoSection = dom w InfoSection /\
  (forall id, result_field id = true -> dom w' id = dom w id) /\
  stockChart w' = stockChart w /\
  charts w' = charts w.
Proof.
  intros Ht He Hm. unfold click. rewrite handler_nonblank by assumption.
  unfold click_resume, try_catch_finally, render, bind. cbn [await_response ret].
  rewrite He. destruct message as [|c message]; [congruence|].
  cbn. repeat split; auto.
  intros [] H; try discriminate H; reflexivity.
Qed.

Lemma C2_witness :
  ticker_of (loaded (fresh_page (lit "XYZ"))) <> [] /\
  get no_data (lit "error") = Ok (VStr (lit "No data found")) /\
  innerText (dom (click (Decoded no_data) (loaded (fresh_page (lit "XYZ")))) ErrorMessage)
  = lit "No data found".
Proof.
  split; [vm_compute; discriminate|]. split; [reflexivity|].
  pose proof (C2_error_field_shown_verbatim (loaded (fresh_page (lit "XYZ"))) no_data
                (lit "No data found")) as H.
  cbv zeta in H.
  destruct H as (_ & Hm & _);
    [vm_compute; discriminate|reflexivity|vm_compute; discriminate|exact Hm].
Defined.

(** C3. For a well-formed, error-free response with last_close = 100:
    when predicted_price = 105 the handler writes "$5.00" to the
    price-change field and "5.00%" to the percent-change field, and the
    badge reads "Bullish" followed by an up arrow (U+2191) with class
    name "badge positive", so it carries the class positive; when
    predicted_price = 95 the badge reads "Bearish" followed by a down
    arrow (U+2193) with class name "badge negative". *)
Theorem C3_change_percent_badge w data :
  ticker_of w <> [] ->
  well_formed data = true ->
  error_free data = true ->
  last_close data = of_Z 100 ->
  let w' := click (Decoded data) w in
  (predicted_price data = of_Z 105 ->
   innerText (dom w' PriceChange) = lit "$5.00" /\
   innerText (dom w' PercentChange) = lit "5.00%" /\
   innerText (dom w' ChangeBadge) = lit "Bullish " ++ up_arrow /\
   className (dom w' ChangeBadge) = lit "badge positive" /\
   has_class (lit "positive") (dom w' ChangeBadge) = true) /\
  (predicted_price data = of_Z 95 ->
   innerText (dom w' ChangeBadge) = lit "Bearish " ++ down_arrow /\
   className (dom w' ChangeBadge) = lit "badge negative" /\
   has_class (lit "negative") (dom w' ChangeBadge) = true).
Proof.
  intros Ht Hwf He Hlc. unfold click.
  rewrite handler_shape by auto using well_formed_shape.
  split; intros Hpp.
  - assert (Hc : change_text (last_close data) (predicted_price data) = lit "5.00")
      by (rewrite Hlc, Hpp; vm_compute; reflexivity).
    assert (Hp : percent_text (last_close data) (predicted_price data) = lit "5.00")
      by (rewrite Hlc, Hpp; vm_compute; reflexivity).
    assert (Hr : rising (last_close data) (predicted_price data) = true)
      by (rewrite Hlc, Hpp; vm_compute; reflexivity).
    destruct (history_closes data); cbn; unfold has_class; cbn;
      rewrite Hc, Hp, Hr; repeat split; reflexivity.
  - assert (Hr : rising (last_close data) (predicted_price data) = false)
      by (rewrite Hlc, Hpp; vm_compute; reflexivity).
    destruct (history_closes data); cbn; unfold has_class; cbn;
      rewrite Hr; repeat split; reflexivity.
Qed.

Lemma C3_witness :
  let w := loaded (fresh_page (lit "AAPL")) in
  (innerText (dom (click (Decoded (quote 100 105)) w) PriceChange) = lit "$5.00" /\
   innerText (dom (click (Decoded (quote 100 105)) w) PercentChange) = lit "5.00%" /\
   innerText (dom (click (Decoded (quote 100 105)) w) ChangeBadge) = lit "Bullish " ++ up_arrow /\
   className (dom (click (Decoded (quote 100 105)) w) ChangeBadge) = lit "badge positive" /\
   has_class (lit "positive") (dom (click (Decoded (quote 100 105)) w) ChangeBadge) = true) /\
  (innerText (dom (click (Decoded (quote 100 95)) w) ChangeBadge) = lit "Bearish " ++ down_arrow /\
   className (dom (click (Decoded (quote 100 95)) w) ChangeBadge) = lit "badge negative" /\
   has_class (lit "negative") (dom (click (Decoded (quote 100 95)) w) ChangeBadge) = true).
Proof.
  cbv zeta. split.
  - apply (C3_change_percent_badge (loaded (fresh_page (lit "AAPL"))) (quote 100 105));
      solve [vm_compute; discriminate | reflexivity].
  - apply (C3_change_percent_badge (loaded (fresh_page (lit "AAPL"))) (quote 100 95));
      solve [vm_compute; discriminate | reflexivity].
Defined.

(** C4. When the awaited [fetch] or the decoding of the body throws, the
    handler catches the exception (it completes normally), shows the
    generic message "Error connecting to server." in the error element,
    and the finally block puts the button back: text "inline", loading
    element "none". *)
Theorem C4_exception_generic_message w o :
  ticker_of w <> [] ->
  o = FetchRejects \/ o = JsonRejects ->
  let w' := click o w in
  fst (handler o w) = Normal tt /\
  innerText (dom w' ErrorMessage) = lit "Error connecting to server." /\
  display (dom w' ErrorMessage) = lit "block" /\
  button_normal w'.
Proof.
  intros Ht Ho. unfold click. rewrite handler_nonblank by assumption.
  destruct Ho as [-> | ->]; repeat split; reflexivity.
Qed.

Lemma C4_witness :
  ticker_of (loaded (fresh_page (lit "AAPL"))) <> [] /\
  innerText (dom (click FetchRejects (loaded (fresh_page (lit "AAPL")))) ErrorMessage)
  = lit "Error connecting to server." /\
  button_normal (click JsonRejects (loaded (fresh_page (lit "AAPL")))).
Proof.
  split; [vm_compute; discriminate|]. split.
  - apply (C4_exception_generic_message (loaded (fresh_page (lit "AAPL"))) FetchRejects);
      [vm_compute; discriminate|left; reflexivity].
  - apply (C4_exception_generic_message (loaded (fresh_page (lit "AAPL"))) JsonRejects);
      [vm_compute; discriminate|right; reflexivity].
Defined.

(** C5, as stated, fails.  A visitor types a ticker and clicks; while
    that request is pending (the button shows its loading state) the
    field is cleared and the button clicked again.  The second click
    returns at the validation, before the try block: its cleanup never
    runs and the button is still in its loading state when the handler
    has finished. *)
Lemma C5_counterexample :
  let w := page (run [Edit (lit "AAPL"); Click; Edit []]
                   (System (loaded (fresh_page [])) 0)) in
  ticker_of w = [] /\
  fst (handler FetchRejects w) = Return /\
  display (dom (click FetchRejects w) BtnText) = lit "none" /\
  display (dom (click FetchRejects w) BtnLoading) = lit "inline-flex" /\
  (button_normal (click FetchRejects w) -> False).
Proof.
  cbv zeta. repeat split; try reflexivity.
  intros [H _]. vm_compute in H. discriminate H.
Qed.

(** C5, amended.  On every path that gets past the validation of the
    ticker (application error, success, or any exception) the finally
    block runs and the button ends with its text displayed "inline" and
    its loading element "none", also when several clicks overlap.  On
    the validation-failure path the handler returns before the try
    block and leaves both parts of the button exactly as they were. *)
Theorem C5_button_reset_after_validation o w :
  (ticker_of w <> [] -> button_normal (click o w)) /\
  (ticker_of w = [] ->
   dom (click o w) BtnText = dom w BtnText /\
   dom (click o w) BtnLoading = dom w BtnLoading) /\
  (forall n, button_normal (page (step (System w (S n)) (Settle o)))).
Proof.
  split; [|split].
  - intros Ht. unfold click. rewrite handler_nonblank by assumption.
    apply click_resume_button.
  - intros Ht. split; apply (blank_frame o w Ht); discriminate.
  - intros n. apply click_resume_button.
Qed.

Lemma C5_witness :
  button_normal (click (Decoded no_data) (loaded (fresh_page (lit "XYZ")))) /\
  dom (click FetchRejects (loaded (fresh_page (lit " ")))) BtnLoading
  = dom (loaded (fresh_page (lit " "))) BtnLoading.
Proof.
  split.
  - apply (C5_button_reset_after_validation (Decoded no_data)
             (loaded (fresh_page (lit "XYZ")))).
    vm_compute; discriminate.
  - apply (C5_button_reset_after_validation FetchRejects
             (loaded (fresh_page (lit " ")))).
    reflexivity.
Defined.

(** C6. At most one chart object is alive at a time.  The chart
    reference is null and there is no chart object at load; from there,
    after every sequence of edits, clicks and settled responses (clicks
    may overlap) at most one chart object is alive, and it is the one
    [stockChart] refers to; a click either leaves the chart objects
    alone, or calls destroy on the current one, or calls destroy on the
    current one and then appends a fresh object that becomes current,
    so that no earlier object is alive when the new one is built; in
    particular two clicks in succession leave at most one alive. *)
Theorem C6_at_most_one_live_chart :
  (forall page0, stockChart (loaded page0) = None /\ charts (loaded page0) = []) /\
  (forall page0 events,
     let w := page (run events (System (loaded page0) 0)) in
     only_current_live w /\ length (live_charts w) <= 1) /\
  (forall page0 events o,
     let w := page (run events (System (loaded page0) 0)) in
     chart_effect w (click o w) /\
     no_live (World (dom w) (stockChart w) (destroy_current w) (requests w)) /\
     snd (destroy_old w) = World (dom w) (stockChart w) (destroy_current w) (requests w)) /\
  (forall page0 text1 o1 text2 o2,
     length (live_charts (click o2 (edit text2 (click o1 (edit text1 (loaded page0)))))) <= 1).
Proof.
  assert (Hrun : forall page0 events,
             only_current_live (page (run events (System (loaded page0) 0)))).
  { intros. apply run_preserves, loaded_only_current_live. }
  split; [|split; [|split]].
  - intros; split; reflexivity.
  - intros; split; [apply Hrun|apply only_current_live_count, Hrun].
  - intros page0 events o w. split; [apply click_effect|split].
    + intros i c Hi. cbn [charts] in Hi.
      eapply destroy_current_no_live; [apply Hrun|exact Hi].
    + now rewrite destroy_old_run.
  - intros. apply only_current_live_count.
    eapply chart_effect_preserves; [|apply click_effect].
    apply edit_preserves.
    eapply chart_effect_preserves; [|apply click_effect].
    apply edit_preserves, loaded_only_current_live.
Qed.

(** C7, as stated, fails on a well-formed, error-free response whose
    history is empty: there is no last historical point, building the
    predicted series throws, and no chart object ever receives it. *)
Lemma C7_counterexample :
  well_formed empty_history = true /\
  error_free empty_history = true /\
  history_closes empty_history = [] /\
  predicted_series empty_history = Err RangeError /\
  predicted_series empty_history <> Ok (padded_series empty_history) /\
  charts (click (Decoded empty_history) (loaded (fresh_page (lit "AAPL")))) = [].
Proof. repeat split; try reflexivity. discriminate. Qed.

(** C7, amended.  For every well-formed, error-free response whose
    history.closes is not empty: the labels are history.dates followed
    by the dates of the predicted entries; the combined prices are
    history.closes followed by the predicted prices; the data of the
    predicted series is (length of history.closes - 1) nulls, then
    last_close, then the predicted prices, so that its entry at the
    index of the last historical point is last_close.  The click builds
    one live chart object from these, which becomes [stockChart]. *)
Theorem C7_chart_series w data :
  ticker_of w <> [] ->
  well_formed data = true ->
  error_free data = true ->
  history_closes data <> [] ->
  let w' := click (Decoded data) w in
  let n := length (history_closes data) in
  combined data (lit "dates") (lit "date")
  = Ok (history_dates data ++ predicted_dates data) /\
  combined data (lit "closes") (lit "price")
  = Ok (history_closes data ++ predicted_prices data) /\
  predicted_series data
  = Ok (repeat VNull (n - 1) ++ [VNum (last_close data)] ++ predicted_prices data) /\
  (repeat VNull (n - 1) ++ [VNum (last_close data)] ++ predicted_prices data) !! (n - 1)
  = Some (VNum (last_close data)) /\
  exists c,
    stockChart w' = Some (length (charts w)) /\
    charts w' !! length (charts w) = Some c /\
    live c = true /\
    chart_labels c = Ok (VArr (history_dates data ++ predicted_dates data)) /\
    dataset_data 0 c = Ok (VArr (history_closes data)) /\
    dataset_data 1 c
    = Ok (VArr (repeat VNull (n - 1) ++ [VNum (last_close data)] ++ predicted_prices data)).
Proof.
  intros Ht Hwf He Hne. pose proof (well_formed_shape data Hwf) as Hs.
  cbv zeta. unfold click. rewrite handler_shape by assumption.
  rewrite !combined_shape, predicted_series_shape by auto.
  split; [reflexivity|]. split; [reflexivity|].
  destruct (history_closes data) as [|c cs] eqn:Hc; [congruence|].
  unfold padded_series. rewrite Hc.
  split; [reflexivity|]. split.
  - rewrite lookup_app_r by (rewrite repeat_length; lia).
    rewrite repeat_length, Nat.sub_diag. reflexivity.
  - exists (Chart (config_literal (history_dates data ++ predicted_dates data)
                      (VArr (c :: cs))
                      (repeat VNull (length (c :: cs) - 1)
                       ++ [VNum (last_close data)] ++ predicted_prices data)) false).
    cbn [stockChart charts snd]. split; [reflexivity|].
    split; [|repeat split; reflexivity].
    rewrite lookup_app_r by (rewrite length_destroy_current; lia).
    rewrite length_destroy_current, Nat.sub_diag. reflexivity.
Qed.

Lemma C7_witness :
  let w' := click (Decoded (quote 100 105)) (loaded (fresh_page (lit "AAPL"))) in
  predicted_series (quote 100 105)
  = Ok [VNull; VNum (of_Z 100); VNum (of_Z 105)] /\
  exists c,
    stockChart w' = Some 0 /\
    charts w' !! 0 = Some c /\
    live c = true /\
    chart_labels c
    = Ok (VArr [VStr (lit "2024-01-02"); VStr (lit "2024-01-03"); VStr (lit "2024-01-04")]) /\
    dataset_data 0 c = Ok (VArr [VNum (of_Z 98); VNum (of_Z 100)]) /\
    dataset_data 1 c = Ok (VArr [VNull; VNum (of_Z 100); VNum (of_Z 105)]).
Proof.
  cbv zeta.
  pose proof (C7_chart_series (loaded (fresh_page (lit "AAPL"))) (quote 100 105)) as H.
  cbv zeta in H.
  destruct H as (_ & _ & Hseries & _ & Hchart);
    [vm_compute; discriminate|reflexivity|reflexivity|vm_compute; discriminate|].
  split; [exact Hseries|exact Hchart].
Defined.

(** C8. A click that ends in a remote failure (the awaited fetch or the
    decoding throws, or the decoded body reports an error) renders
    nothing of the results: the six result fields, the results and info
    sections, [stockChart] and the chart objects are as they were; the
    error element is shown; and exactly one request has been sent (no
    retry). *)
Theorem C8_remote_failure_renders_nothing w o :
  ticker_of w <> [] ->
  remote_failure o ->
  let w' := click o w in
  (forall id, result_field id = true -> dom w' id = dom w id) /\
  dom w' ResultsSection = dom w ResultsSection /\
  dom w' InfoSection = dom w InfoSection /\
  stockChart w' = stockChart w /\
  charts w' = charts w /\
  display (dom w' ErrorMessage) = lit "block" /\
  requests w' = requests w ++ [predict_request (ticker_of w)].
Proof.
  intros Ht Hf. unfold click. rewrite handler_nonblank by assumption.
  assert (Hfield : forall d : elem_id -> element,
             (forall id, id <> ErrorMessage -> id <> BtnText -> id <> BtnLoading ->
                         d id = dom w id) ->
             forall id, result_field id = true -> d id = dom w id).
  { intros d Hd [] H; try discriminate H; apply Hd; discriminate. }
  destruct o as [| |data].
  - cbn. repeat split; auto. intros [] H; try discriminate H; reflexivity.
  - cbn. repeat split; auto. intros [] H; try discriminate H; reflexivity.
  - destruct Hf as (err & He & Hb).
    unfold click_resume, try_catch_finally, render, bind. cbn [await_response ret].
    rewrite He. cbn [lift ret]. rewrite Hb.
    unfold assign_innerText, bind. cbn [lift ret].
    destruct (to_dom_string err) as [s|e]; cbn;
      repeat split; auto; intros [] H; try discriminate H; reflexivity.
Qed.

Lemma C8_witness :
  ticker_of (loaded (fresh_page (lit "XYZ"))) <> [] /\
  remote_failure (Decoded no_data) /\
  let w' := click (Decoded no_data) (loaded (fresh_page (lit "XYZ"))) in
  (forall id, result_field id = true -> dom w' id = dom (loaded (fresh_page (lit "XYZ"))) id) /\
  charts w' = [].
Proof.
  assert (Ht : ticker_of (loaded (fresh_page (lit "XYZ"))) <> [])
    by (vm_compute; discriminate).
  assert (Hf : remote_failure (Decoded no_data))
    by (exists (VStr (lit "No data found")); split; reflexivity).
  split; [exact Ht|]. split; [exact Hf|].
  pose proof (C8_remote_failure_renders_nothing
                (loaded (fresh_page (lit "XYZ"))) (Decoded no_data) Ht Hf) as H.
  cbv zeta in *. split; apply H.
Defined.

Lemma percent_text_zero s pp :
  percent_text (S754_zero s) pp = lit "Infinity"
  \/ percent_text (S754_zero s) pp = lit "-Infinity"
  \/ percent_text (S754_zero s) pp = lit "NaN".
Proof.
  unfold percent_text.
  destruct (string_to_number (change_text (S754_zero s) pp)) as [[]|[]| |[] m e];
    destruct s; vm_compute; auto.
Qed.

(** C9. The percentage divides by last_close without a guard.  For every
    well-formed, error-free response whose last_close is zero (of either
    sign) the division raises nothing: the handler goes on, writes
    "Infinity%", "-Infinity%" or "NaN%" to the percent-change field,
    shows the results section and hides the info section; and when the
    history is not empty the click succeeds (no error is shown, a new
    chart becomes current). *)
Theorem C9_zero_last_close w data s :
  ticker_of w <> [] ->
  well_formed data = true ->
  error_free data = true ->
  last_close data = S754_zero s ->
  let w' := click (Decoded data) w in
  fst (handler (Decoded data) w) = Normal tt /\
  (innerText (dom w' PercentChange) = lit "Infinity%"
   \/ innerText (dom w' PercentChange) = lit "-Infinity%"
   \/ innerText (dom w' PercentChange) = lit "NaN%") /\
  display (dom w' ResultsSection) = lit "block" /\
  display (dom w' InfoSection) = lit "none" /\
  (history_closes data <> [] ->
   display (dom w' ErrorMessage) = lit "none" /\
   stockChart w' = Some (length (charts w)) /\
   length (charts w') = S (length (charts w))).
Proof.
  intros Ht Hwf He Hlc. cbv zeta. unfold click.
  rewrite handler_shape by auto using well_formed_shape.
  split; [reflexivity|].
  assert (Hp : forall d,
             innerText (reset (sections (card data (loading (dom w)))) PercentChange)
             = d -> innerText (reset (failed (lit "Error connecting to server.")
                                 (sections (card data (loading (dom w))))) PercentChange) = d)
    by (intros d H; exact H).
  split.
  - assert (H : innerText (reset (sections (card data (loading (dom w)))) PercentChange)
                = percent_text (last_close data) (predicted_price data) ++ lit "%")
      by reflexivity.
    rewrite Hlc in H.
    destruct (percent_text_zero s (predicted_price data)) as [E|[E|E]];
      rewrite E in H; destruct (history_closes data); cbn [snd dom]; auto.
  - destruct (history_closes data) as [|c cs]; (split; [reflexivity|]);
      (split; [reflexivity|]); intros Hne; [congruence|].
    cbn [snd stockChart charts]. split; [reflexivity|]. split; [reflexivity|].
    rewrite length_app, length_destroy_current. cbn. lia.
Qed.

Lemma C9_witness :
  let w' := click (Decoded (quote 0 5)) (loaded (fresh_page (lit "AAPL"))) in
  last_close (quote 0 5) = S754_zero false /\
  innerText (dom w' PercentChange) = lit "Infinity%" /\
  display (dom w' ResultsSection) = lit "block" /\
  stockChart w' = Some 0.
Proof.
  cbv zeta. split; [reflexivity|].
  pose proof (C9_zero_last_close (loaded (fresh_page (lit "AAPL"))) (quote 0 5) false) as H.
  cbv zeta in H.
  destruct H as (_ & _ & Hr & _ & Hc);
    [vm_compute; discriminate|reflexivity|reflexivity|reflexivity|].
  split; [reflexivity|]. split; [exact Hr|].
  apply Hc. vm_compute; discriminate.
Defined.

(** C10. For every well-formed, error-free response whose history.closes
    is empty, the length of the array of placeholders is -1 and
    [new Array] throws a RangeError while the predicted series is being
    built; the handler catches it and shows "Error connecting to
    server." although the response arrived and decoded; by then the six
    result fields have been written (and the results section shown), and
    no chart object is built (the current one, if any, has already been
    destroyed). *)
Theorem C10_empty_history w data :
  ticker_of w <> [] ->
  well_formed data = true ->
  error_free data = true ->
  history_closes data = [] ->
  let w' := click (Decoded data) w in
  let lc := last_close data in
  let pp := predicted_price data in
  array_fill_null (num_sub (of_Z (Z.of_nat (length (history_closes data)))) (of_Z 1))
  = Err RangeError /\
  predicted_series data = Err RangeError /\
  fst (draw_chart data w) = Throw RangeError /\
  fst (handler (Decoded data) w) = Normal tt /\
  innerText (dom w' ErrorMessage) = lit "Error connecting to server." /\
  display (dom w' ErrorMessage) = lit "block" /\
  innerText (dom w' TickerDisplay) = ticker data /\
  innerText (dom w' CurrentPrice) = lit "$" ++ num_to_string lc /\
  innerText (dom w' PredictedPrice) = lit "$" ++ num_to_string pp /\
  innerText (dom w' PriceChange) = lit "$" ++ change_text lc pp /\
  innerText (dom w' PercentChange) = percent_text lc pp ++ lit "%" /\
  innerText (dom w' ChangeBadge)
  = (if rising lc pp then lit "Bullish " ++ up_arrow else lit "Bearish " ++ down_arrow) /\
  className (dom w' ChangeBadge)
  = lit "badge " ++ (if rising lc pp then lit "positive" else lit "negative") /\
  display (dom w' ResultsSection) = lit "block" /\
  stockChart w' = stockChart w /\
  charts w' = destroy_current w /\
  length (charts w') = length (charts w) /\
  requests w' = requests w ++ [predict_request (ticker_of w)].
Proof.
  intros Ht Hwf He Hc. pose proof (well_formed_shape data Hwf) as Hs.
  cbv zeta. unfold click.
  rewrite handler_shape, draw_chart_shape, predicted_series_shape by assumption.
  rewrite Hc. cbn [snd fst length stockChart charts requests].
  rewrite length_destroy_current.
  repeat split; reflexivity.
Qed.

Lemma C10_witness :
  let w' := click (Decoded empty_history) (loaded (fresh_page (lit "AAPL"))) in
  history_closes empty_history = [] /\
  predicted_series empty_history = Err RangeError /\
  innerText (dom w' ErrorMessage) = lit "Error connecting to server." /\
  innerText (dom w' PriceChange) = lit "$5.00" /\
  innerText (dom w' TickerDisplay) = lit "AAPL".
Proof.
  cbv zeta. split; [reflexivity|].
  pose proof (C10_empty_history (loaded (fresh_page (lit "AAPL"))) empty_history) as H.
  cbv zeta in H.
  destruct H as (_ & Hseries & _ & _ & Hmsg & _ & Hticker & _ & _ & Hchange & _);
    [vm_compute; discriminate|reflexivity|reflexivity|reflexivity|].
  split; [exact Hseries|]. split; [exact Hmsg|]. split; [exact Hchange|exact Hticker].
Defined.

(* ===================================================================== *)
(** * Further properties of the handler                                   *)
(* ===================================================================== *)

(** ** What a statement leaves alone *)

Section Preserved.
Context {T : Type} (proj : world -> T).

Lemma preserved_ret {A} (a : A) : preserved proj (ret a).
Proof. intros w; reflexivity. Qed.

Lemma preserved_throw {A} e : preserved proj (@throw A e).
Proof. intros w; reflexivity. Qed.

Lemma preserved_return {A} : preserved proj (@do_return A).
Proof. intros w; reflexivity. Qed.

Lemma preserved_lift {A} (r : result A) : preserved proj (lift r).
Proof. destruct r; intros w; reflexivity. Qed.

Lemma preserved_read id : preserved proj (read_value id).
Proof. intros w; reflexivity. Qed.

Lemma preserved_bind {A B} (m : M A) (k : A -> M B) :
  preserved proj m -> (forall a, preserved proj (k a)) -> preserved proj (bind m k).
Proof.
  intros Hm Hk w. unfold bind. specialize (Hm w).
  destruct (m w) as [[a| |e] w1]; cbn [snd] in *; auto.
  rewrite (Hk a w1). exact Hm.
Qed.

Lemma preserved_if {A} (b : bool) (m1 m2 : M A) :
  preserved proj m1 -> preserved proj m2 -> preserved proj (if b then m1 else m2).
Proof. destruct b; auto. Qed.

Lemma preserved_try body handler finalizer :
  preserved proj body -> (forall e, preserved proj (handler e)) ->
  preserved proj finalizer ->
  preserved proj (try_catch_finally body handler finalizer).
Proof.
  intros Hb Hh Hf w. unfold try_catch_finally. specialize (Hb w).
  destruct (body w) as [[a| |e] w1]; cbn [snd] in Hb.
  3: { specialize (Hh e w1). destruct (handler e w1) as [c1 w2]; cbn [snd] in Hh.
       specialize (Hf w2). destruct (finalizer w2) as [[[]| |e2] w3]; cbn [snd] in *;
         congruence. }
  all: specialize (Hf w1); destruct (finalizer w1) as [[[]| |e2] w3]; cbn [snd] in *;
    congruence.
Qed.

End Preserved.

Lemma preserved_requests_modify id f : preserved requests (modify id f).
Proof. intros w; reflexivity. Qed.

Lemma preserved_requests_destroy : preserved requests destroy_old.
Proof. intros w. unfold destroy_old. destruct (stockChart w); reflexivity. Qed.

Lemma preserved_requests_new cfg : preserved requests (new_chart cfg).
Proof. intros w; reflexivity. Qed.

Lemma preserved_element_modify id id' f :
  elem_eqb id id' = false -> preserved (element_of id) (modify id' f).
Proof. intros H w. unfold element_of, modify, update. cbn. now rewrite H. Qed.

Lemma preserved_element_fetch id r : preserved (element_of id) (fetch r).
Proof. intros w; reflexivity. Qed.

Lemma preserved_element_destroy id : preserved (element_of id) destroy_old.
Proof. intros w. unfold destroy_old. destruct (stockChart w); reflexivity. Qed.

Lemma preserved_element_new id cfg : preserved (element_of id) (new_chart cfg).
Proof. intros w; reflexivity. Qed.

Ltac preserved :=
  repeat first
    [ apply preserved_bind; [|intros ?]
    | apply preserved_if
    | apply preserved_try; [| intros ? |]
    | apply preserved_ret | apply preserved_throw | apply preserved_return
    | apply preserved_lift | apply preserved_read
    | apply preserved_requests_modify | apply preserved_requests_destroy
    | apply preserved_requests_new
    | apply preserved_element_fetch | apply preserved_element_destroy
    | apply preserved_element_new
    | apply preserved_element_modify; reflexivity
    | progress unfold set_innerText, set_display, set_className, assign_innerText,
        render, fill_prediction_card, show_sections, draw_chart, on_error,
        reset_button, await_response ].

Lemma render_sends_nothing data : preserved requests (render data).
Proof. preserved. Qed.

Lemma click_resume_sends_nothing o : preserved requests (click_resume o).
Proof. unfold click_resume. preserved. destruct o; preserved. Qed.

(** ** The ticker that is sent *)

Lemma trim_start_split s :
  exists pre, s = pre ++ trim_start s /\ forallb is_white pre = true.
Proof.
  induction s as [|c s (pre & Hs & Hpre)]; [exists []; auto|].
  cbn. destruct (is_white c) eqn:Hc.
  - exists (c :: pre). cbn. rewrite Hc, Hpre. split; [congruence|reflexivity].
  - exists []. auto.
Qed.

Lemma trim_start_head s c : head (trim_start s) = Some c -> is_white c = false.
Proof.
  induction s as [|d s IH]; cbn; [discriminate|].
  destruct (is_white d) eqn:Hd; [exact IH|]. cbn. congruence.
Qed.

Lemma trim_start_nil s : trim_start s = [] <-> forallb is_white s = true.
Proof.
  induction s as [|c s IH]; cbn; [tauto|].
  destruct (is_white c); cbn; [exact IH|]. split; discriminate.
Qed.

Lemma trim_start_keeps_last s c :
  last s = Some c -> is_white c = false -> last (trim_start s) = Some c.
Proof.
  induction s as [|d s IH]; cbn; [discriminate|]. intros Hl Hc.
  destruct (is_white d) eqn:Hd; [|exact Hl].
  destruct s as [|d' s]; [cbn in Hl; congruence|]. apply IH; assumption.
Qed.

Lemma forallb_rev {A} (p : A -> bool) l : forallb p (rev l) = forallb p l.
Proof.
  induction l as [|a l IH]; [reflexivity|].
  cbn. rewrite forallb_app, IH. cbn. rewrite andb_true_r. apply andb_comm.
Qed.

Lemma last_rev {A} (l : list A) : last (rev l) = head l.
Proof. destruct l as [|a l]; [reflexivity|]. cbn [rev]. apply last_snoc. Qed.

Lemma head_rev {A} (l : list A) : head (rev l) = last l.
Proof. rewrite <- (rev_involutive l) at 2. now rewrite last_rev. Qed.

(** [trim] cuts a run of whitespace off each end and nothing else. *)
Lemma trim_split s :
  exists pre post,
    s = pre ++ trim s ++ post /\
    forallb is_white pre = true /\ forallb is_white post = true.
Proof.
  destruct (trim_start_split s) as (pre & Hs & Hpre).
  destruct (trim_start_split (rev (trim_start s))) as (post & Hr & Hpost).
  exists pre, (rev post). split; [|split; [assumption|now rewrite forallb_rev]].
  unfold trim, trim_end. rewrite <- rev_app_distr, <- Hr, rev_involutive. exact Hs.
Qed.

Lemma trim_ends s :
  (forall c, head (trim s) = Some c -> is_white c = false) /\
  (forall c, last (trim s) = Some c -> is_white c = false).
Proof.
  unfold trim, trim_end. split; intros c H.
  - rewrite head_rev in H.
    destruct (trim_start s) as [|d t] eqn:Ht; [discriminate H|].
    assert (Hd : is_white d = false) by (apply (trim_start_head s); now rewrite Ht).
    rewrite (trim_start_keeps_last (rev (d :: t)) d) in H.
    + congruence.
    + rewrite last_rev. reflexivity.
    + assumption.
  - rewrite last_rev in H. eapply trim_start_head, H.
Qed.

Lemma trim_nil s : trim s = [] <-> forallb is_white s = true.
Proof.
  split.
  - intros H. destruct (trim_split s) as (pre & post & Hs & Hpre & Hpost).
    rewrite H in Hs. cbn [app] in Hs. rewrite Hs, forallb_app, Hpre, Hpost. reflexivity.
  - intros H. unfold trim, trim_end.
    apply trim_start_nil in H. rewrite H. reflexivity.
Qed.

Lemma handler_blank o w :
  ticker_of w = [] ->
  fst (handler o w) = Return /\
  innerText (dom (click o w) ErrorMessage) = lit "Please enter a stock ticker!" /\
  display (dom (click o w) ErrorMessage) = lit "block" /\
  requests (click o w) = requests w /\
  stockChart (click o w) = stockChart w /\
  charts (click o w) = charts w.
Proof.
  intros Ht. unfold ticker_of in Ht.
  unfold click, handler, bind, read_value. cbn [value_of]. rewrite Ht.
  repeat split; reflexivity.
Qed.

Lemma not_blank w :
  forallb is_white (value_of (dom w TickerInput)) = false -> ticker_of w <> [].
Proof. unfold ticker_of. intros Hw H%trim_nil. congruence. Qed.

(** X1. The validation rejects exactly the inputs made of whitespace
    only, the empty input among them: for these the handler shows the
    validation message, returns and sends nothing; for every other input
    it sends one request carrying the trimmed input, whatever the
    response turns out to be. *)
Theorem X1_validation_rejects_whitespace_only o w :
  let input := value_of (dom w TickerInput) in
  if forallb is_white input
  then fst (handler o w) = Return /\
       innerText (dom (click o w) ErrorMessage) = lit "Please enter a stock ticker!" /\
       display (dom (click o w) ErrorMessage) = lit "block" /\
       requests (click o w) = requests w
  else trim input <> [] /\
       requests (click o w) = requests w ++ [predict_request (trim input)].
Proof.
  cbv zeta. destruct (forallb is_white (value_of (dom w TickerInput))) eqn:Hw.
  - apply trim_nil in Hw. pose proof (handler_blank o w Hw) as H. tauto.
  - pose proof (not_blank w Hw) as Ht.
    split; [exact Ht|]. unfold click. rewrite handler_nonblank by assumption.
    apply (click_resume_sends_nothing o).
Qed.

(** X2. The request of a click.  When the input is not blank the handler
    sends exactly one request, whatever the outcome: a POST to the fixed
    local URL, with JSON content type, whose payload is the ticker with
    days 1 and window 5.  The ticker is the input without the whitespace
    at its two ends: it neither starts nor ends with whitespace, and what
    lies between is untouched.  Nothing is sent when a response settles
    (no retry). *)
Theorem X2_request_payload o w :
  ticker_of w <> [] ->
  requests (click o w)
  = requests w
    ++ [Request (lit "http://127.0.0.1:5000/predict") (lit "POST")
          (lit "application/json")
          (VObj [(lit "ticker", VStr (ticker_of w));
                 (lit "days", VNum (of_Z 1));
                 (lit "window", VNum (of_Z 5))])] /\
  (exists pre post,
     value_of (dom w TickerInput) = pre ++ ticker_of w ++ post /\
     forallb is_white pre = true /\ forallb is_white post = true) /\
  (forall c, head (ticker_of w) = Some c -> is_white c = false) /\
  (forall c, last (ticker_of w) = Some c -> is_white c = false) /\
  (forall o' w', requests (snd (click_resume o' w')) = requests w').
Proof.
  intros Ht. split; [|split; [apply trim_split|split; [|split]]].
  - unfold click. rewrite handler_nonblank by assumption.
    apply (click_resume_sends_nothing o).
  - apply trim_ends.
  - apply trim_ends.
  - intros o' w'. apply (click_resume_sends_nothing o').
Qed.

Lemma X2_witness :
  let w := loaded (fresh_page (lit "  BRK B ")) in
  ticker_of w = lit "BRK B" /\
  requests (click FetchRejects w)
  = [Request (lit "http://127.0.0.1:5000/predict") (lit "POST")
       (lit "application/json")
       (VObj [(lit "ticker", VStr (lit "BRK B"));
              (lit "days", VNum (of_Z 1));
              (lit "window", VNum (of_Z 5))])].
Proof.
  cbv zeta. split; [reflexivity|].
  destruct (X2_request_payload FetchRejects (loaded (fresh_page (lit "  BRK B "))))
    as (H & _); [vm_compute; discriminate|].
  rewrite H. reflexivity.
Defined.

(** ** Completions *)



Lemma falls_ret {A} (a : A) : falls_through (ret a).
Proof. intros w; discriminate. Qed.

Lemma falls_throw {A} e : falls_through (@throw A e).
Proof. intros w; discriminate. Qed.

Lemma falls_lift {A} (r : result A) : falls_through (lift r).
Proof. destruct r; intros w; discriminate. Qed.

Lemma falls_modify id f : falls_through (modify id f).
Proof. intros w; discriminate. Qed.

Lemma falls_bind {A B} (m : M A) (k : A -> M B) :
  falls_through m -> (forall a, falls_through (k a)) -> falls_through (bind m k).
Proof.
  intros Hm Hk w. unfold bind. specialize (Hm w).
  destruct (m w) as [[a| |e] w1]; cbn [fst] in *; [apply Hk|congruence|discriminate].
Qed.

Ltac falls :=
  repeat first
    [ apply falls_bind; [|intros ?]
    | apply falls_ret | apply falls_throw | apply falls_lift | apply falls_modify
    | progress unfold set_innerText, set_display, set_className, assign_innerText,
        fill_prediction_card ].

Lemma card_falls_through data : falls_through (fill_prediction_card data).
Proof. falls. Qed.

Lemma card_keeps id data :
  result_field id = false -> preserved (element_of id) (fill_prediction_card data).
Proof. intros H. destruct id; try discriminate H; preserved. Qed.

Lemma card_sends_nothing data : preserved requests (fill_prediction_card data).
Proof. preserved. Qed.

(** Drawing the chart either builds a fresh chart object that becomes
    current, or throws; the page is not touched. *)
Lemma draw_chart_cases data w :
  (exists cfg,
     draw_chart data w =
     (Normal tt,
      World (dom w) (Some (length (charts w)))
        (destroy_current w ++ [Chart cfg false]) (requests w)))
  \/ (exists e w', draw_chart data w = (Throw e, w') /\ dom w' = dom w).
Proof.
  unfold draw_chart, bind.
  destruct (combined data (lit "dates") (lit "date")) as [labels|e]; cbn [lift ret throw];
    [|right; eauto].
  destruct (combined data (lit "closes") (lit "price")) as [prices|e]; cbn [lift ret throw];
    [|right; eauto].
  rewrite destroy_old_run.
  destruct (chart_config data labels) as [cfg|e]; cbn [lift ret throw].
  - left. exists cfg. unfold new_chart. cbn [dom charts requests].
    rewrite length_destroy_current. reflexivity.
  - right. eauto.
Qed.

(** The three ways in which the rendering of a decoded body ends. *)
Lemma render_cases data w :
  match render data w with
  | (Normal _, w') =>
      dom w' ErrorMessage = dom w ErrorMessage /\
      display (dom w' ResultsSection) = lit "block" /\
      display (dom w' InfoSection) = lit "none" /\
      stockChart w' = Some (length (charts w)) /\
      exists cfg, charts w' = destroy_current w ++ [Chart cfg false]
  | (Return, w') => display (dom w' ErrorMessage) = lit "block"
  | (Throw _, _) => True
  end.
Proof.
  unfold render. unfold bind at 1.
  destruct (get data (lit "error")) as [err|e]; cbn [lift ret throw]; [|exact I].
  destruct (to_boolean err).
  - unfold assign_innerText, bind. cbn [lift ret throw].
    destruct (to_dom_string err); cbn; [reflexivity|exact I].
  - unfold bind at 1.
    pose proof (card_falls_through data w) as Hf.
    pose proof (card_keeps ErrorMessage data eq_refl w) as He.
    destruct (frame_card data w) as [Hs Hc].
    destruct (fill_prediction_card data w) as [[[]| |e] w1]; cbn [fst snd] in *;
      [|congruence|exact I].
    unfold show_sections, set_display, modify. unfold bind. cbn [dom stockChart charts requests].
    match goal with |- context [draw_chart data ?w2] =>
      destruct (draw_chart_cases data w2) as [[cfg ->]|(e & w' & -> & _)]; [|exact I]
    end.
    unfold element_of in He. cbn [dom stockChart charts].
    repeat split; try reflexivity.
    + exact He.
    + congruence.
    + exists cfg. unfold destroy_current. cbn [stockChart charts]. now rewrite Hs, Hc.
Qed.

(** X4. No click fails silently.  A click whose input is not blank ends
    with the button reset and in one of two ways: the error element is
    shown; or it is hidden, the results section is shown, the info
    section is hidden, and a chart object built by this click is the
    current one. *)
Theorem X4_error_shown_or_chart_built o w :
  ticker_of w <> [] ->
  let w' := click o w in
  button_normal w' /\
  (display (dom w' ErrorMessage) = lit "block"
   \/ (display (dom w' ErrorMessage) = lit "none" /\
       display (dom w' ResultsSection) = lit "block" /\
       display (dom w' InfoSection) = lit "none" /\
       stockChart w' = Some (length (charts w)) /\
       exists cfg, charts w' = destroy_current w ++ [Chart cfg false])).
Proof.
  intros Ht. cbv zeta. unfold click. rewrite handler_nonblank by assumption.
  split; [apply click_resume_button|].
  unfold click_resume, try_catch_finally, bind.
  destruct o as [| |data]; cbn [await_response throw ret]; [left; reflexivity..|].
  match goal with |- context [render data ?w0] =>
    pose proof (render_cases data w0) as H; destruct (render data w0) as [[[]| |e] w1]
  end.
  - right. destruct H as (He & Hr & Hi & Hs & cfg & Hc). cbn in *.
    rewrite He. repeat split; auto. exists cfg. exact Hc.
  - left. cbn in *. exact H.
  - left. reflexivity.
Qed.

Lemma X4_witness :
  let w := loaded (fresh_page (lit "AAPL")) in
  display (dom (click (Decoded (quote 100 105)) w) ErrorMessage) = lit "none" /\
  display (dom (click (Decoded VNull) w) ErrorMessage) = lit "block" /\
  button_normal (click (Decoded VNull) w).
Proof.
  cbv zeta. split; [reflexivity|]. split; [reflexivity|].
  apply (X4_error_shown_or_chart_built (Decoded VNull) (loaded (fresh_page (lit "AAPL")))).
  vm_compute; discriminate.
Defined.

(** ** What the handler never undoes *)

Section Stable.
Variables (sec : elem_id) (shown : jsstring).

Let P : world -> Prop := shows sec shown.

Lemma stable_ret {A} (a : A) : stable P (ret a).
Proof. intros w H; exact H. Qed.

Lemma stable_throw {A} e : stable P (@throw A e).
Proof. intros w H; exact H. Qed.

Lemma stable_return {A} : stable P (@do_return A).
Proof. intros w H; exact H. Qed.

Lemma stable_lift {A} (r : result A) : stable P (lift r).
Proof. destruct r; intros w H; exact H. Qed.

Lemma stable_read id : stable P (read_value id).
Proof. intros w H; exact H. Qed.

Lemma stable_fetch r : stable P (fetch r).
Proof. intros w H; exact H. Qed.

Lemma stable_destroy : stable P destroy_old.
Proof. intros w H. unfold destroy_old. destruct (stockChart w); exact H. Qed.

Lemma stable_new cfg : stable P (new_chart cfg).
Proof. intros w H; exact H. Qed.

(** A write keeps the property when it goes to another element, or when
    it writes the very value. *)
Lemma stable_modify id f :
  elem_eqb sec id = false \/ (forall e, display (f e) = shown) ->
  stable P (modify id f).
Proof.
  intros Hid w H. unfold P, shows, modify, update in *. cbn.
  destruct (elem_eqb sec id); [|exact H].
  destruct Hid as [Hid|Hid]; [discriminate|apply Hid].
Qed.

Lemma stable_bind {A B} (m : M A) (k : A -> M B) :
  stable P m -> (forall a, stable P (k a)) -> stable P (bind m k).
Proof.
  intros Hm Hk w H. unfold bind. specialize (Hm w H).
  destruct (m w) as [[a| |e] w1]; cbn [snd] in *; auto. apply Hk, Hm.
Qed.

Lemma stable_if {A} (b : bool) (m1 m2 : M A) :
  stable P m1 -> stable P m2 -> stable P (if b then m1 else m2).
Proof. destruct b; auto. Qed.

Lemma stable_try body handler finalizer :
  stable P body -> (forall e, stable P (handler e)) -> stable P finalizer ->
  stable P (try_catch_finally body handler finalizer).
Proof.
  intros Hb Hh Hf w H. unfold try_catch_finally. specialize (Hb w H).
  destruct (body w) as [[a| |e] w1]; cbn [snd] in Hb.
  3: { specialize (Hh e w1 Hb). destruct (handler e w1) as [c1 w2]; cbn [snd] in Hh.
       specialize (Hf w2 Hh). destruct (finalizer w2) as [[[]| |e2] w3]; exact Hf. }
  all: specialize (Hf w1 Hb); destruct (finalizer w1) as [[[]| |e2] w3]; exact Hf.
Qed.

End Stable.

Ltac stable :=
  repeat first
    [ apply stable_bind; [|intros ?]
    | apply stable_if
    | apply stable_try; [| intros ? |]
    | apply stable_ret | apply stable_throw | apply stable_return
    | apply stable_lift | apply stable_read | apply stable_fetch
    | apply stable_destroy | apply stable_new
    | apply stable_modify; first [left; reflexivity | right; intros; reflexivity]
    | progress unfold set_innerText, set_display, set_className, assign_innerText,
        render, fill_prediction_card, show_sections, draw_chart, on_error,
        reset_button, click_start, click_resume ].

Lemma results_stay_shown_resume o :
  stable (shows ResultsSection (lit "block")) (click_resume o).
Proof. stable. destruct o; stable. Qed.

Lemma results_stay_shown_start :
  stable (shows ResultsSection (lit "block")) click_start.
Proof. stable. Qed.

Lemma info_stays_hidden_resume o :
  stable (shows InfoSection (lit "none")) (click_resume o).
Proof. stable. destruct o; stable. Qed.

Lemma info_stays_hidden_start :
  stable (shows InfoSection (lit "none")) click_start.
Proof. stable. Qed.

Lemma step_stable (P : world -> Prop) s e :
  stable P click_start -> (forall o, stable P (click_resume o)) ->
  (forall text w, P w -> P (edit text w)) ->
  P (page s) -> P (page (step s e)).
Proof.
  intros Hstart Hresume Hedit H. destruct e as [text| |o]; cbn [step].
  - apply Hedit, H.
  - specialize (Hstart (page s) H).
    destruct (click_start (page s)) as [[[]| |e] w]; exact Hstart.
  - destruct (pending s); [exact H|]. apply Hresume, H.
Qed.

Lemma run_stable (P : world -> Prop) events :
  stable P click_start -> (forall o, stable P (click_resume o)) ->
  (forall text w, P w -> P (edit text w)) ->
  forall s, P (page s) -> P (page (run events s)).
Proof.
  intros Hstart Hresume Hedit.
  induction events as [|e events IH]; intros s H; [exact H|].
  cbn. apply IH, step_stable; assumption.
Qed.

(** X5. What has been shown is never taken back.  Once the results
    section is displayed and the info section hidden (as after any
    successful prediction), they stay so through every later sequence
    of edits, clicks and settled responses: a later validation error or
    failed request shows its message next to the results of the earlier
    prediction. *)
Theorem X5_results_never_hidden_again events s :
  display (dom (page s) ResultsSection) = lit "block" ->
  display (dom (page s) InfoSection) = lit "none" ->
  display (dom (page (run events s)) ResultsSection) = lit "block" /\
  display (dom (page (run events s)) InfoSection) = lit "none".
Proof.
  intros Hr Hi. split.
  - apply (run_stable (shows ResultsSection (lit "block")));
      auto using results_stay_shown_start, results_stay_shown_resume.
  - apply (run_stable (shows InfoSection (lit "none")));
      auto using info_stays_hidden_start, info_stays_hidden_resume.
Qed.

Lemma X5_witness :
  let s := System (click (Decoded (quote 100 105)) (loaded (fresh_page (lit "AAPL")))) 0 in
  let events := [Edit []; Click; Edit (lit "MSFT"); Click; Settle FetchRejects] in
  display (dom (page (run events s)) ResultsSection) = lit "block" /\
  display (dom (page (run events s)) InfoSection) = lit "none" /\
  innerText (dom (page (run events s)) ErrorMessage) = lit "Error connecting to server." /\
  innerText (dom (page (run events s)) TickerDisplay) = lit "AAPL".
Proof.
  cbv zeta.
  pose proof (X5_results_never_hidden_again
                [Edit []; Click; Edit (lit "MSFT"); Click; Settle FetchRejects]
                (System (click (Decoded (quote 100 105))
                           (loaded (fresh_page (lit "AAPL")))) 0)
                eq_refl eq_refl) as [Hr Hi].
  split; [exact Hr|]. split; [exact Hi|]. split; reflexivity.
Defined.

(** ** The error field *)

Lemma str_eqb_true s t : str_eqb s t = true -> s = t.
Proof.
  revert t; induction s as [|c s IH]; intros [|d t]; cbn; try discriminate; auto.
  intros [Hc Hs]%andb_true_iff. apply N.eqb_eq in Hc. f_equal; auto.
Qed.

Lemma own_without_other k k' fields :
  str_eqb k k' = false -> own k (without k' fields) = own k fields.
Proof.
  intros Hk. unfold without. induction fields as [|[k1 v] fields IH]; [reflexivity|].
  cbn. destruct (str_eqb k' k1) eqn:E1; cbn.
  - apply str_eqb_true in E1. subst k1. now rewrite Hk.
  - rewrite IH. reflexivity.
Qed.

Lemma own_without k fields : own k (without k fields) = None.
Proof.
  unfold without. induction fields as [|[k1 v] fields IH]; [reflexivity|].
  cbn. destruct (str_eqb k k1) eqn:E1; cbn; [exact IH|]. now rewrite E1.
Qed.

Lemma get_without k k' fields :
  str_eqb k k' = false ->
  get (VObj (without k' fields)) k = get (VObj fields) k.
Proof. intros Hk. cbn. now rewrite own_without_other. Qed.

Lemma render_error_ignored fields e w :
  own (lit "error") fields = Some e -> to_boolean e = false ->
  render (VObj fields) w = render (VObj (without (lit "error") fields)) w.
Proof.
  intros He Hb. unfold render.
  rewrite (get_own _ _ _ He).
  replace (get (VObj (without (lit "error") fields)) (lit "error")) with (Ok VUndefined)
    by (cbn; now rewrite own_without).
  cbn [lift]. unfold bind at 1 5. cbn [ret]. rewrite Hb. cbn [to_boolean].
  unfold fill_prediction_card, draw_chart, chart_config, predicted_series, combined.
  rewrite !get_without by reflexivity. reflexivity.
Qed.

(** X6. An error field that is falsy (the empty string, null, false, 0
    or NaN) is not an error: the click does exactly what it does on the
    same body without the error field. *)
Theorem X6_falsy_error_is_ignored fields e w :
  own (lit "error") fields = Some e ->
  to_boolean e = false ->
  handler (Decoded (VObj fields)) w
  = handler (Decoded (VObj (without (lit "error") fields))) w.
Proof.
  intros He Hb. rewrite !handler_split. unfold bind.
  destruct (click_start w) as [[[]| |x] w1]; try reflexivity.
  unfold click_resume, try_catch_finally, bind. cbn [await_response ret].
  rewrite (render_error_ignored fields e w1 He Hb). reflexivity.
Qed.

Lemma X6_witness :
  let fields := (lit "error", VStr []) :: fields_of (quote 100 105) in
  let w := loaded (fresh_page (lit "AAPL")) in
  without (lit "error") fields = fields_of (quote 100 105) /\
  handler (Decoded (VObj fields)) w = handler (Decoded (quote 100 105)) w.
Proof.
  cbv zeta. split; [reflexivity|].
  apply (X6_falsy_error_is_ignored
           ((lit "error", VStr []) :: fields_of (quote 100 105)) (VStr [])
           (loaded (fresh_page (lit "AAPL")))); reflexivity.
Defined.

(** ** A body without history *)

Lemma draw_chart_without_history data w :
  get data (lit "history") = Ok VUndefined \/ get data (lit "history") = Ok VNull ->
  draw_chart data w = (Throw TypeError, w).
Proof.
  intros H. unfold draw_chart, combined.
  destruct H as [-> | ->]; reflexivity.
Qed.

Lemma render_without_history data w :
  error_free data = true ->
  get data (lit "history") = Ok VUndefined \/ get data (lit "history") = Ok VNull ->
  exists e w',
    render data w = (Throw e, w') /\
    stockChart w' = stockChart w /\ charts w' = charts w /\
    requests w' = requests w.
Proof.
  intros (err & He & Hb)%error_free_get Hh. unfold render.
  rewrite He. cbn [lift]. unfold bind at 1. cbn [ret]. rewrite Hb.
  unfold bind at 1.
  pose proof (card_falls_through data w) as Hf.
  pose proof (card_sends_nothing data w) as Hr.
  destruct (frame_card data w) as [Hs Hc].
  destruct (fill_prediction_card data w) as [[[]| |e] w1]; cbn [fst snd] in *;
    [|congruence|eauto 10].
  unfold show_sections, set_display, modify. unfold bind.
  rewrite draw_chart_without_history by assumption.
  eexists _, _. split; [reflexivity|]. cbn [stockChart charts requests]. auto.
Qed.

(** X7. A decoded body that reports no error and has no history (the
    property is missing or null) makes the handler throw a TypeError
    before the chart is touched: the generic connectivity message is
    shown, the button is reset, and [stockChart] and every chart object
    are exactly as before, so that a chart drawn earlier stays alive.
    (With an empty history, instead, the current chart is destroyed.) *)
Theorem X7_missing_history_keeps_chart w data :
  ticker_of w <> [] ->
  error_free data = true ->
  get data (lit "history") = Ok VUndefined \/ get data (lit "history") = Ok VNull ->
  let w' := click (Decoded data) w in
  innerText (dom w' ErrorMessage) = lit "Error connecting to server." /\
  display (dom w' ErrorMessage) = lit "block" /\
  button_normal w' /\
  stockChart w' = stockChart w /\
  charts w' = charts w /\
  requests w' = requests w ++ [predict_request (ticker_of w)].
Proof.
  intros Ht He Hh. cbv zeta. unfold click. rewrite handler_nonblank by assumption.
  unfold click_resume, try_catch_finally, bind. cbn [await_response ret].
  match goal with |- context [render data ?w0] =>
    destruct (render_without_history data w0 He Hh) as (e & w1 & -> & Hs & Hc & Hr)
  end.
  cbn in *. repeat split; auto.
Qed.

Lemma X7_witness :
  let w := click (Decoded (quote 100 105)) (loaded (fresh_page (lit "AAPL"))) in
  let data := VObj [(lit "ticker", VStr (lit "AAPL"))] in
  let w' := click (Decoded data) w in
  innerText (dom w' ErrorMessage) = lit "Error connecting to server." /\
  stockChart w' = Some 0 /\
  length (live_charts w') = 1 /\
  innerText (dom w' CurrentPrice) = lit "$undefined".
Proof.
  cbv zeta.
  pose proof (X7_missing_history_keeps_chart
                (click (Decoded (quote 100 105)) (loaded (fresh_page (lit "AAPL"))))
                (VObj [(lit "ticker", VStr (lit "AAPL"))])) as H.
  cbv zeta in H.
  destruct H as (Hm & _ & _ & Hs & _);
    [vm_compute; discriminate|reflexivity|left; reflexivity|].
  split; [exact Hm|]. split; [exact Hs|]. split; reflexivity.
Defined.

(** ** The chart objects after a click *)

Lemma no_live_filter (l : list chart) :
  (forall i c, l !! i = Some c -> live c = false) ->
  filter (fun c => live c = true) l = [].
Proof.
  induction l as [|a l IH]; intros H; [reflexivity|].
  rewrite filter_cons. destruct (decide (live a = true)) as [Ha|Ha].
  - rewrite (H 0 a eq_refl) in Ha. discriminate.
  - apply IH. intros i c Hi. apply (H (S i) c Hi).
Qed.

Lemma reachable_only_current_live page0 events :
  only_current_live (page (run events (System (loaded page0) 0))).
Proof. apply run_preserves, loaded_only_current_live. Qed.

Lemma destroy_current_all_dead w :
  only_current_live w -> filter (fun c => live c = true) (destroy_current w) = [].
Proof.
  intros Hinv. apply no_live_filter. intros i c Hi.
  eapply destroy_current_no_live; eassumption.
Qed.

(** X8. A well-formed response without history costs the visitor the
    chart.  In every state the page can reach, a click answered by a
    well-formed, error-free response whose history.closes is empty
    leaves no chart object alive: the current chart has been destroyed
    before the RangeError, none was built, and [stockChart] keeps
    referring to the destroyed object. *)
Theorem X8_empty_history_destroys_chart page0 events data :
  let w := page (run events (System (loaded page0) 0)) in
  ticker_of w <> [] ->
  well_formed data = true ->
  error_free data = true ->
  history_closes data = [] ->
  let w' := click (Decoded data) w in
  live_charts w' = [] /\
  stockChart w' = stockChart w /\
  length (charts w') = length (charts w) /\
  (forall i, stockChart w = Some i -> i < length (charts w) ->
             exists c, charts w' !! i = Some c /\ destroyed c = true).
Proof.
  cbv zeta. intros Ht Hwf He Hc. unfold click.
  rewrite handler_shape by auto using well_formed_shape. rewrite Hc.
  unfold live_charts. cbn [snd charts stockChart].
  split; [apply destroy_current_all_dead, reachable_only_current_live|].
  split; [reflexivity|]. split; [apply length_destroy_current|].
  intros i Hi Hlt. unfold destroy_current. rewrite Hi.
  rewrite list_lookup_alter_eq.
  destruct (lookup_lt_is_Some_2 _ _ Hlt) as [c Hci]. rewrite Hci.
  exists (destroy c). split; reflexivity.
Qed.

Lemma X8_witness :
  let events := [Edit (lit "AAPL"); Click; Settle (Decoded (quote 100 105))] in
  let w := page (run events (System (loaded (fresh_page [])) 0)) in
  length (live_charts w) = 1 /\
  live_charts (click (Decoded empty_history) w) = [] /\
  stockChart (click (Decoded empty_history) w) = Some 0.
Proof.
  cbv zeta. split; [reflexivity|].
  pose proof (X8_empty_history_destroys_chart (fresh_page [])
                [Edit (lit "AAPL"); Click; Settle (Decoded (quote 100 105))]
                empty_history) as H.
  cbv zeta in H.
  destruct H as (Hl & Hs & _);
    [vm_compute; discriminate|reflexivity|reflexivity|reflexivity|].
  split; [exact Hl|]. rewrite Hs. reflexivity.
Defined.

(** X9. After a successful click exactly one chart object is alive.  In
    every state the page can reach, a click answered by a well-formed,
    error-free response with a non-empty history leaves one live chart
    object: the one built from this response, to which [stockChart]
    refers; every object built earlier is destroyed. *)
Theorem X9_success_leaves_one_live_chart page0 events data :
  let w := page (run events (System (loaded page0) 0)) in
  ticker_of w <> [] ->
  well_formed data = true ->
  error_free data = true ->
  history_closes data <> [] ->
  let w' := click (Decoded data) w in
  let built :=
    Chart (config_literal (history_dates data ++ predicted_dates data)
             (VArr (history_closes data)) (padded_series data)) false in
  live_charts w' = [built] /\
  stockChart w' = Some (length (charts w)) /\
  charts w' !! length (charts w) = Some built /\
  (forall i c, i < length (charts w) -> charts w' !! i = Some c -> destroyed c = true).
Proof.
  cbv zeta. intros Ht Hwf He Hc. unfold click.
  rewrite handler_shape by auto using well_formed_shape.
  destruct (history_closes data) as [|x xs] eqn:E; [congruence|]. rewrite <- E.
  unfold live_charts. cbn [snd charts stockChart].
  pose proof (reachable_only_current_live page0 events) as Hinv.
  split; [|split; [reflexivity|split]].
  - rewrite filter_app, destroy_current_all_dead by assumption. reflexivity.
  - rewrite lookup_app_r by (rewrite length_destroy_current; lia).
    rewrite length_destroy_current, Nat.sub_diag. reflexivity.
  - intros i c Hi Hl.
    rewrite lookup_app_l in Hl by (rewrite length_destroy_current; lia).
    pose proof (destroy_current_no_live _ i c Hinv Hl) as Hd.
    unfold live in Hd. now apply negb_false_iff in Hd.
Qed.

Lemma X9_witness :
  let events := [Edit (lit "AAPL"); Click; Settle (Decoded (quote 100 105))] in
  let w := page (run events (System (loaded (fresh_page [])) 0)) in
  let w' := click (Decoded (quote 100 95)) w in
  length (live_charts w') = 1 /\
  stockChart w' = Some 1 /\
  length (charts w') = 2.
Proof.
  cbv zeta.
  pose proof (X9_success_leaves_one_live_chart (fresh_page [])
                [Edit (lit "AAPL"); Click; Settle (Decoded (quote 100 105))]
                (quote 100 95)) as H.
  cbv zeta in H.
  destruct H as (Hl & Hs & _);
    [vm_compute; discriminate|reflexivity|reflexivity|vm_compute; discriminate|].
  split; [rewrite Hl; reflexivity|]. split; [exact Hs|reflexivity].
Defined.

(** X10. How the chart lines up.  For a well-formed response with a
    non-empty history, the chart has one label per historical date plus
    one per predicted entry, and the predicted series has one point per
    historical close plus one per predicted entry: the two have the same
    length exactly when history.dates and history.closes do, and the
    historical series is shorter than the predicted one by the number of
    predicted entries. *)
Theorem X10_series_line_up data :
  well_formed data = true ->
  history_closes data <> [] ->
  exists labels series,
    combined data (lit "dates") (lit "date") = Ok labels /\
    predicted_series data = Ok series /\
    length labels = length (history_dates data) + length (predicted_prices data) /\
    length series = length (history_closes data) + length (predicted_prices data) /\
    (length series = length labels <->
     length (history_closes data) = length (history_dates data)).
Proof.
  intros Hwf Hc. pose proof (well_formed_shape data Hwf) as Hs.
  exists (history_dates data ++ predicted_dates data), (padded_series data).
  rewrite combined_shape, predicted_series_shape by auto.
  destruct (history_closes data) as [|x xs] eqn:E; [congruence|].
  split; [reflexivity|]. split; [reflexivity|].
  assert (Hl : length (predicted_dates data) = length (predicted_prices data))
    by (unfold predicted_dates, predicted_prices; now rewrite !length_map).
  unfold padded_series. rewrite E, !length_app, repeat_length, Hl. cbn [length].
  lia.
Qed.

Lemma X10_witness :
  exists labels series,
    combined (quote 100 105) (lit "dates") (lit "date") = Ok labels /\
    predicted_series (quote 100 105) = Ok series /\
    length labels = 3 /\ length series = 3.
Proof.
  destruct (X10_series_line_up (quote 100 105)) as (labels & series & H1 & H2 & H3 & H4 & _);
    [reflexivity|vm_compute; discriminate|].
  exists labels, series. auto.
Defined.

(** ** The sign of the change *)

(** The texts of the card after a click on a well-formed response. *)
Lemma card_fields w data :
  ticker_of w <> [] -> well_formed data = true -> error_free data = true ->
  let w' := click (Decoded data) w in
  let lc := last_close data in
  let pp := predicted_price data in
  innerText (dom w' PriceChange) = lit "$" ++ change_text lc pp /\
  innerText (dom w' PercentChange) = percent_text lc pp ++ lit "%" /\
  innerText (dom w' ChangeBadge)
  = (if rising lc pp then lit "Bullish " ++ up_arrow else lit "Bearish " ++ down_arrow) /\
  className (dom w' ChangeBadge)
  = lit "badge " ++ (if rising lc pp then lit "positive" else lit "negative").
Proof.
  intros Ht Hwf He. cbv zeta. unfold click.
  rewrite handler_shape by auto using well_formed_shape.
  destruct (history_closes data); repeat split; reflexivity.
Qed.

Lemma num_sub_diag s m e :
  num_sub (S754_finite s m e) (S754_finite s m e) = S754_zero false.
Proof. unfold num_sub, SFsub. rewrite Z.sub_diag. reflexivity. Qed.

Lemma percent_of_zero_change sz s m e :
  toFixed 2 (num_mul (num_div (S754_zero sz) (S754_finite s m e)) (of_Z 100)) = lit "0.00".
Proof. destruct sz, s; reflexivity. Qed.

(** X11. An unchanged price counts as a rise.  For a well-formed,
    error-free response whose predicted price equals a finite, non-zero
    last close, the card shows "$0.00" and "0.00%" and the badge is
    Bullish with class name "badge positive". *)
Theorem X11_equal_prices_are_bullish w data s m e :
  ticker_of w <> [] ->
  well_formed data = true ->
  error_free data = true ->
  last_close data = S754_finite s m e ->
  predicted_price data = S754_finite s m e ->
  let w' := click (Decoded data) w in
  innerText (dom w' PriceChange) = lit "$0.00" /\
  innerText (dom w' PercentChange) = lit "0.00%" /\
  innerText (dom w' ChangeBadge) = lit "Bullish " ++ up_arrow /\
  className (dom w' ChangeBadge) = lit "badge positive".
Proof.
  intros Ht Hwf He Hlc Hpp. cbv zeta.
  pose proof (card_fields w data Ht Hwf He) as H. cbv zeta in H.
  rewrite Hlc, Hpp in H.
  assert (Hc : change_text (S754_finite s m e) (S754_finite s m e) = lit "0.00")
    by (unfold change_text; rewrite num_sub_diag; reflexivity).
  assert (Hp : percent_text (S754_finite s m e) (S754_finite s m e) = lit "0.00").
  { unfold percent_text. rewrite Hc.
    change (string_to_number (lit "0.00")) with (S754_zero false).
    apply percent_of_zero_change. }
  assert (Hr : rising (S754_finite s m e) (S754_finite s m e) = true)
    by (unfold rising; rewrite Hc; reflexivity).
  rewrite Hc, Hp, Hr in H. exact H.
Qed.

Lemma X11_witness :
  let w' := click (Decoded (quote 100 100)) (loaded (fresh_page (lit "AAPL"))) in
  innerText (dom w' PriceChange) = lit "$0.00" /\
  innerText (dom w' PercentChange) = lit "0.00%" /\
  innerText (dom w' ChangeBadge) = lit "Bullish " ++ up_arrow /\
  className (dom w' ChangeBadge) = lit "badge positive".
Proof.
  cbv zeta.
  apply (X11_equal_prices_are_bullish (loaded (fresh_page (lit "AAPL"))) (quote 100 100)
           false 7036874417766400 (-46));
    solve [vm_compute; discriminate | reflexivity].
Defined.







(** ** A body without last close *)

(** Once the card is filled, nothing later in the click writes to a
    result field. *)
Lemma card_survives data w w1 :
  ticker_of w <> [] ->
  error_free data = true ->
  fill_prediction_card data
    (World (loading (dom w)) (stockChart w) (charts w)
       (requests w ++ [predict_request (ticker_of w)])) = (Normal tt, w1) ->
  forall id, result_field id = true -> dom (click (Decoded data) w) id = dom w1 id.
Proof.
  intros Ht (err & He & Hb)%error_free_get Hfill id Hid.
  unfold click. rewrite handler_nonblank by assumption.
  unfold click_resume, try_catch_finally, bind at 1. cbn [await_response ret].
  unfold render. rewrite He. cbn [lift]. unfold bind at 1. cbn [ret]. rewrite Hb.
  unfold bind at 1. rewrite Hfill.
  unfold show_sections, set_display, modify. unfold bind.
  match goal with |- context [draw_chart data ?w2] =>
    destruct (draw_chart_cases data w2) as [[cfg ->]|(e & w' & -> & Hd)]
  end.
  - destruct id; try discriminate Hid; reflexivity.
  - cbn. unfold update. rewrite Hd.
    destruct id; try discriminate Hid; reflexivity.
Qed.

(** X13. A body without last_close is not rejected.  When the decoded
    body reports no error, has a string ticker and a numeric
    predicted_price but no last_close, the card is filled all the same:
    the current price reads "$undefined", the change "$NaN", the
    percentage "NaN%", and the badge is Bearish with class name "badge
    negative" (a NaN is not at least 0). *)
Theorem X13_missing_last_close w data name pp :
  ticker_of w <> [] ->
  error_free data = true ->
  get data (lit "ticker") = Ok (VStr name) ->
  get data (lit "predicted_price") = Ok (VNum pp) ->
  get data (lit "last_close") = Ok VUndefined ->
  let w' := click (Decoded data) w in
  innerText (dom w' TickerDisplay) = name /\
  innerText (dom w' CurrentPrice) = lit "$undefined" /\
  innerText (dom w' PredictedPrice) = lit "$" ++ num_to_string pp /\
  innerText (dom w' PriceChange) = lit "$NaN" /\
  innerText (dom w' PercentChange) = lit "NaN%" /\
  innerText (dom w' ChangeBadge) = lit "Bearish " ++ down_arrow /\
  className (dom w' ChangeBadge) = lit "badge negative".
Proof.
  intros Ht He Hn Hp Hl. cbv zeta.
  assert (Hsub : num_sub pp num_nan = num_nan) by (destruct pp; reflexivity).
  eassert (Hfill : fill_prediction_card data _ = (Normal tt, _)).
  { unfold fill_prediction_card. rewrite Hn, Hp, Hl.
    unfold assign_innerText, dollar, to_fixed2, arith, bind.
    cbn [lift ret rbind to_string to_dom_string to_number set_innerText modify].
    rewrite Hsub. reflexivity. }
  pose proof (card_survives data w _ Ht He Hfill) as H.
  split; [exact (f_equal innerText (H TickerDisplay eq_refl))|].
  split; [exact (f_equal innerText (H CurrentPrice eq_refl))|].
  split; [exact (f_equal innerText (H PredictedPrice eq_refl))|].
  split; [exact (f_equal innerText (H PriceChange eq_refl))|].
  split; [exact (f_equal innerText (H PercentChange eq_refl))|].
  split; [exact (f_equal innerText (H ChangeBadge eq_refl))|].
  exact (f_equal className (H ChangeBadge eq_refl)).
Qed.

Lemma X13_witness :
  let data :=
    VObj [(lit "ticker", VStr (lit "AAPL")); (lit "predicted_price", VNum (of_Z 105));
          (lit "history",
            VObj [(lit "dates", VArr [VStr (lit "2024-01-03")]);
                  (lit "closes", VArr [VNum (of_Z 100)])]);
          (lit "predicted", VArr [])] in
  let w' := click (Decoded data) (loaded (fresh_page (lit "AAPL"))) in
  display (dom w' ErrorMessage) = lit "none" /\
  innerText (dom w' PriceChange) = lit "$NaN" /\
  innerText (dom w' ChangeBadge) = lit "Bearish " ++ down_arrow.
Proof.
  cbv zeta. split; [reflexivity|].
  pose proof (X13_missing_last_close (loaded (fresh_page (lit "AAPL")))
    (VObj [(lit "ticker", VStr (lit "AAPL")); (lit "predicted_price", VNum (of_Z 105));
           (lit "history",
             VObj [(lit "dates", VArr [VStr (lit "2024-01-03")]);
                   (lit "closes", VArr [VNum (of_Z 100)])]);
           (lit "predicted", VArr [])])
    (lit "AAPL") (of_Z 105)) as H.
  cbv zeta in H.
  destruct H as (_ & _ & _ & Hc & _ & Hb & _);
    [vm_compute; discriminate|reflexivity|reflexivity|reflexivity|reflexivity|].
  split; [exact Hc|exact Hb].
Defined.

(** ** Clicking again *)

(** X14. A repeated prediction changes nothing on the page.  When a
    click has been answered by a well-formed, error-free response with a
    non-empty history, a second click answered by the same response
    leaves every element of the page as the first one left it; only the
    chart object is replaced by one with the same configuration. *)
Theorem X14_second_click_same_page w data :
  ticker_of w <> [] ->
  well_formed data = true ->
  error_free data = true ->
  history_closes data <> [] ->
  let w1 := click (Decoded data) w in
  let w2 := click (Decoded data) w1 in
  (forall id, dom w2 id = dom w1 id) /\
  stockChart w2 = Some (S (length (charts w))) /\
  (exists c1 c2,
     charts w2 !! length (charts w) = Some c1 /\
     charts w2 !! S (length (charts w)) = Some c2 /\
     destroyed c1 = true /\ destroyed c2 = false /\ config c1 = config c2).
Proof.
  intros Ht Hwf He Hc. cbv zeta. pose proof (well_formed_shape data Hwf) as Hs.
  set (built := Chart (config_literal (history_dates data ++ predicted_dates data)
                         (VArr (history_closes data)) (padded_series data)) false).
  assert (Hclick : forall v, ticker_of v <> [] ->
            click (Decoded data) v
            = World (reset (sections (card data (loading (dom v)))))
                (Some (length (charts v))) (destroy_current v ++ [built])
                (requests v ++ [predict_request (ticker_of v)])).
  { intros v Hv. unfold click. rewrite handler_shape by assumption.
    destruct (history_closes data); [congruence|reflexivity]. }
  rewrite (Hclick w Ht).
  set (w1 := World (reset (sections (card data (loading (dom w)))))
               (Some (length (charts w))) (destroy_current w ++ [built])
               (requests w ++ [predict_request (ticker_of w)])).
  rewrite (Hclick w1 Ht).
  assert (Hlen : length (charts w1) = S (length (charts w)))
    by (unfold w1; cbn [charts]; rewrite length_app, length_destroy_current; cbn; lia).
  cbn [dom stockChart charts].
  split.
  { intros id. unfold w1. cbn [dom].
    destruct id;
      cbn [reset sections card loading update elem_eqb with_display with_innerText
           with_className value_of innerText display className];
      reflexivity. }
  split; [now rewrite Hlen|].
  exists (destroy built), built.
  assert (Hd : destroy_current w1 = destroy_current w ++ [destroy built]).
  { unfold destroy_current, w1. cbn [stockChart charts].
    rewrite <- (length_destroy_current w) at 1.
    change (destroy_current w ++ [built]) with (destroy_current w ++ built :: []).
    rewrite <- (Nat.add_0_r (length (destroy_current w))).
    rewrite alter_app_r. reflexivity. }
  rewrite Hd. split; [|split; [|repeat split]].
  - rewrite lookup_app_l by (rewrite length_app, length_destroy_current; cbn; lia).
    rewrite lookup_app_r by (rewrite length_destroy_current; lia).
    rewrite length_destroy_current, Nat.sub_diag. reflexivity.
  - rewrite lookup_app_r by (rewrite length_app, length_destroy_current; cbn; lia).
    rewrite length_app, length_destroy_current. cbn [length].
    replace (S (length (charts w)) - (length (charts w) + 1)) with 0 by lia. reflexivity.
Qed.

Lemma X14_witness :
  let w1 := click (Decoded (quote 100 105)) (loaded (fresh_page (lit "AAPL"))) in
  let w2 := click (Decoded (quote 100 105)) w1 in
  (forall id, dom w2 id = dom w1 id) /\ stockChart w2 = Some 1.
Proof.
  cbv zeta.
  pose proof (X14_second_click_same_page (loaded (fresh_page (lit "AAPL"))) (quote 100 105)) as H.
  cbv zeta in H.
  destruct H as (Hd & Hs & _);
    [vm_compute; discriminate|reflexivity|reflexivity|vm_compute; discriminate|].
  split; [exact Hd|exact Hs].
Defined.

(** ** An error field of any type *)

(** X15. The error field is shown through string conversion, whatever
    its type.  When the decoded body has a truthy error field, the
    handler shows its string form (a number as its decimal rendering, an
    array joined by commas, a plain object as "[object Object]") and
    returns; when the value has no string form (an object with an own
    toString property) the conversion throws and the generic message is
    shown instead.  In both cases the error element is displayed and the
    button is reset. *)
Theorem X15_error_of_any_type w data err :
  ticker_of w <> [] ->
  get data (lit "error") = Ok err ->
  to_boolean err = true ->
  let w' := click (Decoded data) w in
  display (dom w' ErrorMessage) = lit "block" /\
  button_normal w' /\
  match to_dom_string err with
  | Ok text =>
      innerText (dom w' ErrorMessage) = text /\
      fst (handler (Decoded data) w) = Return
  | Err _ =>
      innerText (dom w' ErrorMessage) = lit "Error connecting to server." /\
      fst (handler (Decoded data) w) = Normal tt
  end.
Proof.
  intros Ht He Hb. cbv zeta. unfold click. rewrite handler_nonblank by assumption.
  unfold click_resume, try_catch_finally, render, bind. cbn [await_response ret].
  rewrite He. cbn [lift ret]. rewrite Hb.
  unfold assign_innerText, bind. cbn [lift ret].
  destruct (to_dom_string err) as [text|e]; repeat split; reflexivity.
Qed.

Lemma X15_witness :
  let w := loaded (fresh_page (lit "XYZ")) in
  innerText (dom (click (Decoded (VObj [(lit "error", VNum (of_Z 404))])) w) ErrorMessage)
  = lit "404" /\
  innerText (dom (click (Decoded (VObj [(lit "error", VObj [])])) w) ErrorMessage)
  = lit "[object Object]" /\
  innerText (dom (click (Decoded (VObj [(lit "error", VObj [(lit "toString", VNull)])])) w)
               ErrorMessage)
  = lit "Error connecting to server.".
Proof.
  cbv zeta. split; [|split].
  - apply (X15_error_of_any_type (loaded (fresh_page (lit "XYZ")))
             (VObj [(lit "error", VNum (of_Z 404))]) (VNum (of_Z 404)));
      solve [vm_compute; discriminate | reflexivity].
  - apply (X15_error_of_any_type (loaded (fresh_page (lit "XYZ")))
             (VObj [(lit "error", VObj [])]) (VObj []));
      solve [vm_compute; discriminate | reflexivity].
  - apply (X15_error_of_any_type (loaded (fresh_page (lit "XYZ")))
             (VObj [(lit "error", VObj [(lit "toString", VNull)])])
             (VObj [(lit "toString", VNull)]));
      solve [vm_compute; discriminate | reflexivity].
Defined.

(** ** The requests of a session *)

Lemma trim_start_fixed t :
  (forall c, head t = Some c -> is_white c = false) -> trim_start t = t.
Proof.
  destruct t as [|c t]; [reflexivity|]. intros H. cbn.
  now rewrite (H c eq_refl).
Qed.

Lemma trim_fixed t :
  (forall c, head t = Some c -> is_white c = false) ->
  (forall c, last t = Some c -> is_white c = false) ->
  trim t = t.
Proof.
  intros Hh Hl. unfold trim, trim_end. rewrite (trim_start_fixed t Hh).
  rewrite trim_start_fixed; [apply rev_involutive|].
  intros c Hc. rewrite head_rev in Hc. auto.
Qed.

Lemma trim_idempotent s : trim (trim s) = trim s.
Proof. apply trim_fixed; apply trim_ends. Qed.

Lemma click_start_requests w :
  requests (snd (click_start w)) = requests w
  \/ (exists t, requests (snd (click_start w)) = requests w ++ [predict_request t]
                /\ t <> [] /\ trim t = t).
Proof.
  destruct (forallb is_white (value_of (dom w TickerInput))) eqn:Hw.
  - left. apply trim_nil in Hw. unfold click_start, bind, read_value.
    cbn [value_of]. rewrite Hw. reflexivity.
  - right. pose proof (not_blank w Hw) as Ht. exists (ticker_of w).
    rewrite click_start_nonblank by assumption.
    split; [reflexivity|]. split; [assumption|apply trim_idempotent].
Qed.

Lemma step_requests s e :
  exists sent,
    requests (page (step s e)) = requests (page s) ++ sent /\
    Forall proper_request sent /\
    length sent <= clicks [e].
Proof.
  destruct e as [text| |o]; cbn [step].
  - exists []. rewrite app_nil_r. repeat split; [constructor|cbn; lia].
  - destruct (click_start_requests (page s)) as [H|(t & H & Ht)];
      destruct (click_start (page s)) as [[[]| |e] w]; cbn [snd page] in *.
    1-3: exists []; rewrite app_nil_r; repeat split; [assumption|constructor|cbn; lia].
    all: exists [predict_request t]; split; [assumption|];
      split; [repeat constructor; exists t; tauto|cbn; lia].
  - exists []. rewrite app_nil_r. split; [|split; [constructor|cbn; lia]].
    destruct (pending s); [reflexivity|]. cbn [page].
    apply (click_resume_sends_nothing o).
Qed.

Lemma clicks_cons e events : clicks (e :: events) = clicks [e] + clicks events.
Proof. unfold clicks. cbn. destruct e; reflexivity. Qed.

(** X16. The request log only grows, by well-formed requests.  Through
    every sequence of edits, clicks and settled responses, the requests
    sent before stay in the log in their order, and what is added are
    requests to the fixed endpoint, at most one per click, each with a
    ticker that is not empty and has no whitespace at its ends. *)
Theorem X16_request_log_grows events :
  forall s,
  exists sent,
    requests (page (run events s)) = requests (page s) ++ sent /\
    Forall proper_request sent /\
    length sent <= clicks events.
Proof.
  induction events as [|e events IH]; intros s.
  - exists []. rewrite app_nil_r. repeat split; [constructor|cbn; lia].
  - destruct (step_requests s e) as (sent1 & H1 & F1 & L1).
    destruct (IH (step s e)) as (sent2 & H2 & F2 & L2).
    exists (sent1 ++ sent2). cbn [run fold_left]. fold (run events (step s e)).
    rewrite H2, H1, app_assoc. split; [reflexivity|].
    split; [apply Forall_app; auto|].
    rewrite length_app, clicks_cons. lia.
Qed.
